(** * The weather entity of [homeassistant/components/weather/__init__.py]

    A shallow embedding of the unit handling of [WeatherEntity]: the unit
    properties, [precision], [state_attributes] and
    [async_registry_entry_updated], followed by the properties proved of them.

    Python values are embedded as [PyVal]; a Python [float] is represented by
    the rational number it denotes (no NaN, no infinities).  Exceptions are
    explicit: a computation returns [Ok v] or [Raise x].  Code that reads or
    writes [self] runs in the monad [M], which threads the entity. *)

From Stdlib Require Import ZArith QArith Ascii.
From stdpp Require Import gmap strings list fin_maps pretty.

Open Scope string_scope.

(** ** Python values, exceptions and results *)

Inductive PyVal : Type :=
  | VNone
  | VInt (z : Z)
  | VFloat (q : Q)
  | VStr (s : string).

Inductive PyExn : Type :=
  | ValueError
  | TypeError
  | KeyError
  | AttributeError
  | AssertionError.

Inductive Res (A : Type) : Type :=
  | Ok (a : A)
  | Raise (x : PyExn).

Arguments Ok {A} a.
Arguments Raise {A} x.

#[global] Instance PyExn_eq_dec : EqDecision PyExn.
Proof. solve_decision. Defined.

(** The value of an attribute of the state: a scalar, or the forecast, a list
    of dicts. *)
Inductive Attr : Type :=
  | AVal (v : PyVal)
  | AForecast (l : list (gmap string PyVal)).

(** ** Builtins *)

(** [x is not None] *)
Definition is_not_None (v : PyVal) : bool :=
  match v with VNone => false | _ => true end.

(** [bool(x)]: None, 0, 0.0 and the empty string are false. *)
Definition truthy (v : PyVal) : bool :=
  match v with
  | VNone => false
  | VInt z => negb (z =? 0)%Z
  | VFloat q => negb (Qnum q =? 0)%Z
  | VStr s => negb (String.eqb s "")
  end.

(** [x in t] for a tuple [t] of strings: only an equal string is a member. *)
Definition py_in (v : PyVal) (t : list string) : bool :=
  match v with
  | VStr s => bool_decide (s ∈ t)
  | _ => false
  end.

(** [d[k]] and [d.get(k)] on a dict with string keys. *)
Definition py_getitem (d : gmap string PyVal) (k : string) : Res PyVal :=
  match d !! k with
  | Some v => Ok v
  | None => Raise KeyError
  end.

Definition py_get (d : gmap string PyVal) (k : string) : PyVal :=
  match d !! k with
  | Some v => v
  | None => VNone
  end.

(** Rounding of a rational to the nearest integer, ties to the even one. *)
Definition round_half_even (q : Q) : Z :=
  let n := Qnum q in
  let d := Z.pos (Qden q) in
  let f := (n / d)%Z in
  match (2 * (n mod d) ?= d)%Z with
  | Lt => f
  | Gt => (f + 1)%Z
  | Eq => if Z.even f then f else (f + 1)%Z
  end.

(** [round(x)]: an int. *)
Definition py_round (v : PyVal) : Res PyVal :=
  match v with
  | VInt z => Ok (VInt z)
  | VFloat q => Ok (VInt (round_half_even q))
  | VNone | VStr _ => Raise TypeError
  end.

(** [round(x, ndigits)] for [ndigits >= 0]: a float for a float, the int
    itself for an int. *)
Definition py_round_n (v : PyVal) (ndigits : nat) : Res PyVal :=
  match v with
  | VInt z => Ok (VInt z)
  | VFloat q =>
      let p := (10 ^ Z.of_nat ndigits)%Z in
      Ok (VFloat (Qred (Qmake (round_half_even (q * inject_Z p)) (Z.to_pos p))))
  | VNone | VStr _ => Raise TypeError
  end.

(** ** What the module imports

    The four [convert] functions of [homeassistant.util] and two builtins on
    floats are not part of this module; the development is parametric in
    them.  [float_parses s] says whether [float(s)] accepts the string [s]
    (it raises ValueError otherwise); [float_repr q] is [str] of a float. *)

Class Platform : Type := {
  temperature_util_convert : PyVal → PyVal → PyVal → Res PyVal;
  pressure_util_convert : PyVal → PyVal → PyVal → Res PyVal;
  distance_util_convert : PyVal → PyVal → PyVal → Res PyVal;
  speed_util_convert : PyVal → PyVal → PyVal → Res PyVal;
  float_parses : string → bool;
  float_repr : Q → string
}.

(** [float(x)], whose value the module discards: only the exception counts. *)
Definition py_float {Py : Platform} (v : PyVal) : Res unit :=
  match v with
  | VNone => Raise TypeError
  | VInt _ | VFloat _ => Ok tt
  | VStr s => if float_parses s then Ok tt else Raise ValueError
  end.

(** [str(x)] *)
Definition py_str {Py : Platform} (v : PyVal) : string :=
  match v with
  | VNone => "None"
  | VInt z => pretty z
  | VFloat q => float_repr q
  | VStr s => s
  end.

(** ** Constants *)

(** Modelled from the spec: the unit and precision constants of
    [homeassistant.const], which the module imports. *)
Definition LENGTH_INCHES := "in".
Definition LENGTH_KILOMETERS := "km".
Definition LENGTH_MILES := "mi".
Definition LENGTH_MILLIMETERS := "mm".
Definition PRECISION_TENTHS : PyVal := VFloat (1 # 10).
Definition PRECISION_WHOLE : PyVal := VInt 1.
Definition PRESSURE_HPA := "hPa".
Definition PRESSURE_INHG := "inHg".
Definition PRESSURE_MBAR := "mbar".
Definition PRESSURE_MMHG := "mmHg".
Definition SPEED_KILOMETERS_PER_HOUR := "km/h".
Definition SPEED_METERS_PER_SECOND := "m/s".
Definition SPEED_MILES_PER_HOUR := "mph".
Definition TEMP_CELSIUS := "°C".
Definition TEMP_FAHRENHEIT := "°F".

Definition ATTR_FORECAST := "forecast".
Definition ATTR_FORECAST_CONDITION := "condition".
Definition ATTR_FORECAST_PRECIPITATION := "precipitation".
Definition ATTR_FORECAST_PRECIPITATION_PROBABILITY := "precipitation_probability".
Definition ATTR_FORECAST_PRESSURE := "pressure".
Definition ATTR_FORECAST_TEMP := "temperature".
Definition ATTR_FORECAST_TEMP_LOW := "templow".
Definition ATTR_FORECAST_TIME := "datetime".
Definition ATTR_FORECAST_WIND_BEARING := "wind_bearing".
Definition ATTR_FORECAST_WIND_SPEED := "wind_speed".
Definition ATTR_WEATHER_HUMIDITY := "humidity".
Definition ATTR_WEATHER_OZONE := "ozone".
Definition ATTR_WEATHER_PRESSURE := "pressure".
Definition ATTR_WEATHER_PRESSURE_UNIT := "pressure_unit".
Definition ATTR_WEATHER_TEMPERATURE := "temperature".
Definition ATTR_WEATHER_TEMPERATURE_UNIT := "temperature_unit".
Definition ATTR_WEATHER_VISIBILITY := "visibility".
Definition ATTR_WEATHER_VISIBILITY_UNIT := "visibility_unit".
Definition ATTR_WEATHER_WIND_BEARING := "wind_bearing".
Definition ATTR_WEATHER_WIND_SPEED := "wind_speed".
Definition ATTR_WEATHER_WIND_SPEED_UNIT := "wind_speed_unit".
Definition ATTR_WEATHER_PRECIPITATION_UNIT := "precipitation_unit".

Definition CONF_PRECIPITATION_UOM := "precipitation_unit_of_measurement".
Definition CONF_PRESSURE_UOM := "pressure_unit_of_measurement".
Definition CONF_TEMPERATURE_UOM := "temperature_unit_of_measurement".
Definition CONF_VISIBILITY_UOM := "visibility_unit_of_measurement".
Definition CONF_WIND_SPEED_UOM := "wind_speed_unit_of_measurement".

Definition DOMAIN := "weather".

Definition ROUNDING_PRECISION : nat := 2.

Definition VALID_UNITS_PRESSURE : list string :=
  [PRESSURE_HPA; PRESSURE_MBAR; PRESSURE_INHG; PRESSURE_MMHG].
Definition VALID_UNITS_TEMPERATURE : list string :=
  [TEMP_CELSIUS; TEMP_FAHRENHEIT].
Definition VALID_UNITS_PRECIPITATION : list string :=
  [LENGTH_MILLIMETERS; LENGTH_INCHES].
Definition VALID_UNITS_VISIBILITY : list string :=
  [LENGTH_KILOMETERS; LENGTH_MILES].
Definition VALID_UNITS_SPEED : list string :=
  [SPEED_METERS_PER_SECOND; SPEED_KILOMETERS_PER_HOUR; SPEED_MILES_PER_HOUR].

(** A missing key of either table is a KeyError at the call. *)
#[global] Instance convert_inhabited : Inhabited (PyVal → PyVal → PyVal → Res PyVal) :=
  populate (λ _ _ _, Raise KeyError).

Definition UNIT_CONVERSIONS {Py : Platform} : gmap string (PyVal → PyVal → PyVal → Res PyVal) :=
  <[CONF_PRESSURE_UOM := pressure_util_convert]>
  (<[CONF_TEMPERATURE_UOM := temperature_util_convert]>
  (<[CONF_VISIBILITY_UOM := distance_util_convert]>
  (<[CONF_PRECIPITATION_UOM := distance_util_convert]>
  (<[CONF_WIND_SPEED_UOM := speed_util_convert]> ∅)))).

Definition VALID_UNITS : gmap string (list string) :=
  <[CONF_PRESSURE_UOM := VALID_UNITS_PRESSURE]>
  (<[CONF_TEMPERATURE_UOM := VALID_UNITS_TEMPERATURE]>
  (<[CONF_VISIBILITY_UOM := VALID_UNITS_VISIBILITY]>
  (<[CONF_PRECIPITATION_UOM := VALID_UNITS_PRECIPITATION]>
  (<[CONF_WIND_SPEED_UOM := VALID_UNITS_SPEED]> ∅)))).

(** ** The entity *)

(** [hass.config.units] *)
Record UnitSystem : Type := {
  is_metric : bool;
  units_temperature_unit : string
}.

(** [registry_entry]: its options, one dict per domain. *)
Record RegistryEntry : Type := {
  options : gmap string (gmap string PyVal)
}.

(** The attributes of a [WeatherEntity] that the unit handling reads or
    writes.  [_attr_precision], [_attr_native_temperature_unit] and
    [_attr_native_temperature] are declared without a class default, so they
    can be absent ([None] here); the others always have a value. *)
Record WeatherEntity : Type := {
  hass_config_units : UnitSystem;
  registry_entry : option RegistryEntry;
  _attr_forecast : option (list (gmap string PyVal));
  _attr_humidity : PyVal;
  _attr_ozone : PyVal;
  _attr_precision : option PyVal;
  _attr_native_pressure : PyVal;
  _attr_native_pressure_unit : PyVal;
  _attr_native_temperature_unit : option PyVal;
  _attr_native_temperature : option PyVal;
  _attr_native_visibility : PyVal;
  _attr_native_visibility_unit : PyVal;
  _attr_native_precipitation_unit : PyVal;
  _attr_wind_bearing : PyVal;
  _attr_native_wind_speed : PyVal;
  _attr_native_wind_speed_unit : PyVal;
  _weather_option_temperature_uom : PyVal;
  _weather_option_pressure_uom : PyVal;
  _weather_option_visibility_uom : PyVal;
  _weather_option_precipitation_uom : PyVal;
  _weather_option_wind_speed_uom : PyVal
}.

(** The five stored overrides, in the order of their declaration. *)
Definition overrides (self : WeatherEntity) : PyVal * PyVal * PyVal * PyVal * PyVal :=
  (_weather_option_temperature_uom self,
   _weather_option_pressure_uom self,
   _weather_option_visibility_uom self,
   _weather_option_precipitation_uom self,
   _weather_option_wind_speed_uom self).

(** [self._weather_option_..._uom = v] *)
Definition set_weather_options (t p v r w : PyVal) (self : WeatherEntity) : WeatherEntity :=
  {| hass_config_units := hass_config_units self;
     registry_entry := registry_entry self;
     _attr_forecast := _attr_forecast self;
     _attr_humidity := _attr_humidity self;
     _attr_ozone := _attr_ozone self;
     _attr_precision := _attr_precision self;
     _attr_native_pressure := _attr_native_pressure self;
     _attr_native_pressure_unit := _attr_native_pressure_unit self;
     _attr_native_temperature_unit := _attr_native_temperature_unit self;
     _attr_native_temperature := _attr_native_temperature self;
     _attr_native_visibility := _attr_native_visibility self;
     _attr_native_visibility_unit := _attr_native_visibility_unit self;
     _attr_native_precipitation_unit := _attr_native_precipitation_unit self;
     _attr_wind_bearing := _attr_wind_bearing self;
     _attr_native_wind_speed := _attr_native_wind_speed self;
     _attr_native_wind_speed_unit := _attr_native_wind_speed_unit self;
     _weather_option_temperature_uom := t;
     _weather_option_pressure_uom := p;
     _weather_option_visibility_uom := v;
     _weather_option_precipitation_uom := r;
     _weather_option_wind_speed_uom := w |}.

Definition set_weather_option_temperature_uom (x : PyVal) (self : WeatherEntity) :=
  set_weather_options x (_weather_option_pressure_uom self)
    (_weather_option_visibility_uom self) (_weather_option_precipitation_uom self)
    (_weather_option_wind_speed_uom self) self.

Definition set_weather_option_pressure_uom (x : PyVal) (self : WeatherEntity) :=
  set_weather_options (_weather_option_temperature_uom self) x
    (_weather_option_visibility_uom self) (_weather_option_precipitation_uom self)
    (_weather_option_wind_speed_uom self) self.

Definition set_weather_option_visibility_uom (x : PyVal) (self : WeatherEntity) :=
  set_weather_options (_weather_option_temperature_uom self)
    (_weather_option_pressure_uom self) x (_weather_option_precipitation_uom self)
    (_weather_option_wind_speed_uom self) self.

Definition set_weather_option_precipitation_uom (x : PyVal) (self : WeatherEntity) :=
  set_weather_options (_weather_option_temperature_uom self)
    (_weather_option_pressure_uom self) (_weather_option_visibility_uom self) x
    (_weather_option_wind_speed_uom self) self.

Definition set_weather_option_wind_speed_uom (x : PyVal) (self : WeatherEntity) :=
  set_weather_options (_weather_option_temperature_uom self)
    (_weather_option_pressure_uom self) (_weather_option_visibility_uom self)
    (_weather_option_precipitation_uom self) x self.

(** ** The monad of methods: the entity is threaded, an exception keeps the
    entity as it was when raised. *)

Definition M (A : Type) : Type := WeatherEntity → Res A * WeatherEntity.

Definition ret {A} (a : A) : M A := λ self, (Ok a, self).

Definition raise {A} (x : PyExn) : M A := λ self, (Raise x, self).

Definition bind {A B} (m : M A) (k : A → M B) : M B :=
  λ self,
    match m self with
    | (Ok a, self') => k a self'
    | (Raise x, self') => (Raise x, self')
    end.

(** A pure computation that can raise. *)
Definition lift {A} (r : Res A) : M A := λ self, (r, self).

(** Reading [self] through a property. *)
Definition reads {A} (f : WeatherEntity → A) : M A := λ self, (Ok (f self), self).

(** Assigning to attributes of [self]. *)
Definition modify (f : WeatherEntity → WeatherEntity) : M unit := λ self, (Ok tt, f self).

(** [with suppress(E): body].  The body computes the dict it is about to
    update; when [E] is raised, the dict stays as it was ([dflt]). *)
Definition suppress {A} (E : PyExn) (body : M A) (dflt : A) : M A :=
  λ self,
    match body self with
    | (Raise x, self') => if decide (x = E) then (Ok dflt, self') else (Raise x, self')
    | r => r
    end.

(** [for x in l: acc.append(f x)] *)
Fixpoint for_each {A B} (f : A → M B) (l : list A) : M (list B) :=
  match l with
  | [] => ret []
  | x :: l' => bind (f x) (λ y, bind (for_each f l') (λ ys, ret (y :: ys)))
  end.

Declare Scope method_scope.
Delimit Scope method_scope with method.
Notation "x <- m ;; k" := (bind m (λ x, k))
  (at level 100, m at next level, right associativity) : method_scope.
Notation "m ;;; k" := (bind m (λ _, k))
  (at level 100, right associativity) : method_scope.

(** The result and the final entity of a method called on [self]. *)
Definition result {A} (m : M A) (self : WeatherEntity) : Res A := fst (m self).
Definition final {A} (m : M A) (self : WeatherEntity) : WeatherEntity := snd (m self).

(** ** Properties of the entity *)

Definition native_temperature : M PyVal :=
  (a <- reads _attr_native_temperature ;;
   match a with
   | Some v => ret v
   | None => raise AttributeError
   end)%method.

(** [hasattr(self, "_attr_native_temperature_unit")] *)
Definition native_temperature_unit (self : WeatherEntity) : PyVal :=
  match _attr_native_temperature_unit self with
  | Some u => u
  | None => VNone
  end.

Definition temperature_unit (self : WeatherEntity) : PyVal :=
  if truthy (_weather_option_temperature_uom self)
  then _weather_option_temperature_uom self
  else VStr (units_temperature_unit (hass_config_units self)).

Definition native_pressure (self : WeatherEntity) : PyVal := _attr_native_pressure self.

Definition native_pressure_unit (self : WeatherEntity) : PyVal :=
  _attr_native_pressure_unit self.

Definition pressure_unit (self : WeatherEntity) : PyVal :=
  if truthy (_weather_option_pressure_uom self)
  then _weather_option_pressure_uom self
  else if is_metric (hass_config_units self) then VStr PRESSURE_HPA
  else VStr PRESSURE_INHG.

Definition humidity (self : WeatherEntity) : PyVal := _attr_humidity self.

Definition native_wind_speed (self : WeatherEntity) : PyVal := _attr_native_wind_speed self.

Definition native_wind_speed_unit (self : WeatherEntity) : PyVal :=
  _attr_native_wind_speed_unit self.

Definition wind_speed_unit (self : WeatherEntity) : PyVal :=
  if truthy (_weather_option_wind_speed_uom self)
  then _weather_option_wind_speed_uom self
  else if is_metric (hass_config_units self) then VStr SPEED_METERS_PER_SECOND
  else VStr SPEED_MILES_PER_HOUR.

Definition wind_bearing (self : WeatherEntity) : PyVal := _attr_wind_bearing self.

Definition ozone (self : WeatherEntity) : PyVal := _attr_ozone self.

Definition native_visibility (self : WeatherEntity) : PyVal := _attr_native_visibility self.

Definition native_visibility_unit (self : WeatherEntity) : PyVal :=
  _attr_native_visibility_unit self.

Definition visibility_unit (self : WeatherEntity) : PyVal :=
  if truthy (_weather_option_visibility_uom self)
  then _weather_option_visibility_uom self
  else if is_metric (hass_config_units self) then VStr LENGTH_KILOMETERS
  else VStr LENGTH_MILES.

Definition forecast (self : WeatherEntity) : option (list (gmap string PyVal)) :=
  _attr_forecast self.

Definition native_precipitation_unit (self : WeatherEntity) : PyVal :=
  _attr_native_precipitation_unit self.

Definition precipitation_unit (self : WeatherEntity) : PyVal :=
  if truthy (_weather_option_precipitation_uom self)
  then _weather_option_precipitation_uom self
  else if is_metric (hass_config_units self) then VStr LENGTH_MILLIMETERS
  else VStr LENGTH_INCHES.

(** [x == TEMP_CELSIUS] *)
Definition py_eq_str (v : PyVal) (s : string) : bool :=
  match v with
  | VStr s' => String.eqb s' s
  | _ => false
  end.

Definition precision (self : WeatherEntity) : PyVal :=
  match _attr_precision self with
  | Some p => p
  | None =>
      if py_eq_str (temperature_unit self) TEMP_CELSIUS
      then PRECISION_TENTHS
      else PRECISION_WHOLE
  end.

(** ** [state_attributes] *)

Section StateAttributes.
Context {Py : Platform}.
Open Scope method_scope.

(** The number of decimals of the precision: the characters of
    [str(self.precision)] after its first ["."], or 0 without one. *)
Definition precision_digits (self : WeatherEntity) : nat :=
  let precision_str := py_str (precision self) in
  match String.index 0 "." precision_str with
  | Some i => String.length precision_str - i - 1
  | None => 0
  end.

(** [round(value_temp) if precision == 0 else round(value_temp, precision)] *)
Definition round_temperature (precision : nat) (value_temp : PyVal) : Res PyVal :=
  if (precision =? 0)%nat then py_round value_temp else py_round_n value_temp precision.

(** The block of the current temperature.  Every step that can raise comes
    before the two writes to [data]. *)
Definition temperature_attributes (precision : nat) (data : gmap string Attr)
  : M (gmap string Attr) :=
  temperature <- native_temperature ;;
  if is_not_None temperature then
    suppress ValueError
      (_ <- lift (py_float temperature) ;;
       from_unit <- reads native_temperature_unit ;;
       to_unit <- reads temperature_unit ;;
       value_temp <-
         lift ((UNIT_CONVERSIONS !!! CONF_TEMPERATURE_UOM) temperature from_unit to_unit) ;;
       rounded <- lift (round_temperature precision value_temp) ;;
       unit <- reads temperature_unit ;;
       ret (<[ATTR_WEATHER_TEMPERATURE_UNIT := AVal unit]>
              (<[ATTR_WEATHER_TEMPERATURE := AVal rounded]> data)))
      data
  else ret data.

(** The blocks of pressure, wind speed and visibility, which differ in the
    names only: the reading [value], the key [conf] of the conversion, the
    two unit properties and the two keys written. *)
Definition converted_attributes (value : PyVal) (conf : string)
    (native_unit unit : WeatherEntity → PyVal) (attr attr_unit : string)
    (data : gmap string Attr) : M (gmap string Attr) :=
  if is_not_None value then
    suppress ValueError
      (_ <- lift (py_float value) ;;
       from_unit <- reads native_unit ;;
       to_unit <- reads unit ;;
       converted <- lift ((UNIT_CONVERSIONS !!! conf) value from_unit to_unit) ;;
       rounded <- lift (py_round_n converted ROUNDING_PRECISION) ;;
       unit' <- reads unit ;;
       ret (<[attr_unit := AVal unit']> (<[attr := AVal rounded]> data)))
      data
  else ret data.

(** The temperature of a forecast entry: [forecast_entry[ATTR_FORECAST_TEMP]]
    is read outside the [suppress] block. *)
Definition forecast_temperature (precision : nat)
    (forecast_entry forecast_entry_new : gmap string PyVal) : M (gmap string PyVal) :=
  temperature <- lift (py_getitem forecast_entry ATTR_FORECAST_TEMP) ;;
  suppress ValueError
    (from_unit <- reads native_temperature_unit ;;
     to_unit <- reads temperature_unit ;;
     value_temp <-
       lift ((UNIT_CONVERSIONS !!! CONF_TEMPERATURE_UOM) temperature from_unit to_unit) ;;
     rounded <- lift (round_temperature precision value_temp) ;;
     ret (<[ATTR_FORECAST_TEMP := rounded]> forecast_entry_new))
    forecast_entry_new.

(** The blocks of templow, pressure, wind speed and precipitation of a
    forecast entry, which differ in the names only:
    [if value := forecast_entry.get(key): with suppress(ValueError): ...]. *)
Definition forecast_converted (key conf : string)
    (native_unit unit : WeatherEntity → PyVal)
    (forecast_entry forecast_entry_new : gmap string PyVal) : M (gmap string PyVal) :=
  let value := py_get forecast_entry key in
  if truthy value then
    suppress ValueError
      (from_unit <- reads native_unit ;;
       to_unit <- reads unit ;;
       converted <- lift ((UNIT_CONVERSIONS !!! conf) value from_unit to_unit) ;;
       rounded <- lift (py_round_n converted ROUNDING_PRECISION) ;;
       ret (<[key := rounded]> forecast_entry_new))
      forecast_entry_new
  else ret forecast_entry_new.

(** The body of the loop over the forecast.  [dict(forecast_entry)] is a
    copy that is only read, so the entry of the entity stands for it;
    [{**forecast_entry, **forecast_entry_new}] is the union in which the new
    entries win. *)
Definition forecast_entry_attributes (precision : nat)
    (forecast_entry : gmap string PyVal) : M (gmap string PyVal) :=
  let forecast_entry_new : gmap string PyVal := ∅ in
  forecast_entry_new <- forecast_temperature precision forecast_entry forecast_entry_new ;;
  forecast_entry_new <-
    forecast_converted ATTR_FORECAST_TEMP_LOW CONF_TEMPERATURE_UOM
      native_temperature_unit temperature_unit forecast_entry forecast_entry_new ;;
  forecast_entry_new <-
    forecast_converted ATTR_FORECAST_PRESSURE CONF_PRESSURE_UOM
      native_pressure_unit pressure_unit forecast_entry forecast_entry_new ;;
  forecast_entry_new <-
    forecast_converted ATTR_FORECAST_WIND_SPEED CONF_WIND_SPEED_UOM
      native_wind_speed_unit wind_speed_unit forecast_entry forecast_entry_new ;;
  forecast_entry_new <-
    forecast_converted ATTR_FORECAST_PRECIPITATION CONF_PRECIPITATION_UOM
      native_precipitation_unit precipitation_unit forecast_entry forecast_entry_new ;;
  ret (forecast_entry_new ∪ forecast_entry).

Definition forecast_attributes (precision : nat) (data : gmap string Attr)
  : M (gmap string Attr) :=
  entries <- reads forecast ;;
  match entries with
  | Some entries =>
      forecast <- for_each (forecast_entry_attributes precision) entries ;;
      ret (<[ATTR_FORECAST := AForecast forecast]> data)
  | None => ret data
  end.

Definition state_attributes : M (gmap string Attr) :=
  let data : gmap string Attr := ∅ in
  precision <- reads precision_digits ;;
  data <- temperature_attributes precision data ;;
  humidity <- reads humidity ;;
  data <-
    (if is_not_None humidity then
       rounded <- lift (py_round humidity) ;;
       ret (<[ATTR_WEATHER_HUMIDITY := AVal rounded]> data)
     else ret data) ;;
  ozone <- reads ozone ;;
  data <-
    ret (if is_not_None ozone then <[ATTR_WEATHER_OZONE := AVal ozone]> data else data) ;;
  pressure <- reads native_pressure ;;
  data <-
    converted_attributes pressure CONF_PRESSURE_UOM native_pressure_unit pressure_unit
      ATTR_WEATHER_PRESSURE ATTR_WEATHER_PRESSURE_UNIT data ;;
  wind_bearing <- reads wind_bearing ;;
  data <-
    ret (if is_not_None wind_bearing
         then <[ATTR_WEATHER_WIND_BEARING := AVal wind_bearing]> data else data) ;;
  wind_speed <- reads native_wind_speed ;;
  data <-
    converted_attributes wind_speed CONF_WIND_SPEED_UOM native_wind_speed_unit
      wind_speed_unit ATTR_WEATHER_WIND_SPEED ATTR_WEATHER_WIND_SPEED_UNIT data ;;
  visibility <- reads native_visibility ;;
  data <-
    converted_attributes visibility CONF_VISIBILITY_UOM native_visibility_unit
      visibility_unit ATTR_WEATHER_VISIBILITY ATTR_WEATHER_VISIBILITY_UNIT data ;;
  precipitation_unit <- reads precipitation_unit ;;
  data <-
    ret (if truthy precipitation_unit
         then <[ATTR_WEATHER_PRECIPITATION_UNIT := AVal precipitation_unit]> data
         else data) ;;
  forecast_attributes precision data.

End StateAttributes.

(** ** [async_registry_entry_updated] *)

Section RegistryEntryUpdated.
Open Scope method_scope.

(** [bool(d)] of a dict or None, as in [if weather_options := ....get(DOMAIN)]. *)
Definition truthy_options (o : option (gmap string PyVal)) : bool :=
  match o with
  | Some d => negb (bool_decide (d = ∅))
  | None => false
  end.

(** One of the five [if] statements: the stored option is taken when it is
    truthy, a valid unit, and the native unit is valid too. *)
Definition update_option (weather_options : gmap string PyVal) (conf : string)
    (native_unit : WeatherEntity → PyVal)
    (set : PyVal → WeatherEntity → WeatherEntity) : M unit :=
  let custom_unit := py_get weather_options conf in
  if truthy custom_unit && py_in custom_unit (VALID_UNITS !!! conf) then
    native <- reads native_unit ;;
    if py_in native (VALID_UNITS !!! conf) then modify (set custom_unit) else ret tt
  else ret tt.

Definition async_registry_entry_updated : M unit :=
  entry <- reads registry_entry ;;
  match entry with
  | None => raise AssertionError
  | Some entry =>
      modify (set_weather_option_temperature_uom VNone) ;;;
      modify (set_weather_option_pressure_uom VNone) ;;;
      modify (set_weather_option_precipitation_uom VNone) ;;;
      modify (set_weather_option_wind_speed_uom VNone) ;;;
      modify (set_weather_option_visibility_uom VNone) ;;;
      let weather_options := options entry !! DOMAIN in
      if truthy_options weather_options then
        let weather_options := default ∅ weather_options in
        update_option weather_options CONF_TEMPERATURE_UOM
          native_temperature_unit set_weather_option_temperature_uom ;;;
        update_option weather_options CONF_PRESSURE_UOM
          native_pressure_unit set_weather_option_pressure_uom ;;;
        update_option weather_options CONF_PRECIPITATION_UOM
          native_precipitation_unit set_weather_option_precipitation_uom ;;;
        update_option weather_options CONF_WIND_SPEED_UOM
          native_wind_speed_unit set_weather_option_wind_speed_uom ;;;
        update_option weather_options CONF_VISIBILITY_UOM
          native_visibility_unit set_weather_option_visibility_uom
      else ret tt
  end.

End RegistryEntryUpdated.

(** ** A reference platform

    The unit registry of the specification and the two builtins, as far as
    the examples below need them. *)

Module Reference.

(** The number a value denotes, if it is one. *)
Definition number (v : PyVal) : option Q :=
  match v with
  | VInt z => Some (inject_Z z)
  | VFloat q => Some q
  | VNone | VStr _ => None
  end.

(** A unit [u] with [(a, b)] in a table measures [a * x + b] of the base
    unit of the table for a reading [x]. *)
Definition temperature_table : list (string * (Q * Q)) :=
  [(TEMP_CELSIUS, (1, 0)); (TEMP_FAHRENHEIT, (5 # 9, - (160 # 9)))]%Q.

Definition pressure_table : list (string * (Q * Q)) :=
  [(PRESSURE_HPA, (100, 0)); (PRESSURE_MBAR, (100, 0));
   (PRESSURE_INHG, (3386389 # 1000, 0)); (PRESSURE_MMHG, (133322 # 1000, 0))]%Q.

Definition distance_table : list (string * (Q * Q)) :=
  [(LENGTH_KILOMETERS, (1000, 0)); (LENGTH_MILES, (1609344 # 1000, 0));
   (LENGTH_MILLIMETERS, (1 # 1000, 0)); (LENGTH_INCHES, (254 # 10000, 0))]%Q.

Definition speed_table : list (string * (Q * Q)) :=
  [(SPEED_METERS_PER_SECOND, (1, 0)); (SPEED_KILOMETERS_PER_HOUR, (5 # 18, 0));
   (SPEED_MILES_PER_HOUR, (44704 # 100000, 0))]%Q.

Fixpoint scale_of (table : list (string * (Q * Q))) (u : string) : option (Q * Q) :=
  match table with
  | [] => None
  | (u', ab) :: table' => if String.eqb u u' then Some ab else scale_of table' u
  end.

Definition unit_scale (table : list (string * (Q * Q))) (u : PyVal) : option (Q * Q) :=
  match u with
  | VStr s => scale_of table s
  | _ => None
  end.

(** Modelled from the spec: [Convert(kind, value, fromUnit, toUnit)] of the
    unit registry, the [convert] functions of [homeassistant.util], which are
    not part of the module.  It is defined between the units of a kind, is
    the identity from a unit to itself, and signals a conversion failure, the
    error the caller suppresses, for a unit outside the kind and for a value
    that is not a number. *)
Definition convert (table : list (string * (Q * Q)))
    (value from_unit to_unit : PyVal) : Res PyVal :=
  match unit_scale table from_unit, unit_scale table to_unit, number value with
  | Some (a1, b1), Some (a2, b2), Some x =>
      match from_unit, to_unit with
      | VStr s1, VStr s2 =>
          if String.eqb s1 s2 then Ok value
          else Ok (VFloat (Qred ((a1 * x + b1 - b2) / a2)))
      | _, _ => Raise ValueError
      end
  | _, _, _ => Raise ValueError
  end.

Definition is_digit (c : ascii) : bool :=
  let n := nat_of_ascii c in (48 <=? n)%nat && (n <=? 57)%nat.

Fixpoint all_digits (s : string) : bool :=
  match s with
  | EmptyString => true
  | String c s' => is_digit c && all_digits s'
  end.

(** The digits before and after the first ["."] of [s]. *)
Fixpoint split_dot (s : string) : string * option string :=
  match s with
  | EmptyString => (EmptyString, None)
  | String c s' =>
      if Ascii.eqb c "."%char then (EmptyString, Some s')
      else let '(a, b) := split_dot s' in (String c a, b)
  end.

(** The strings that [float()] takes, as far as the examples go: the plain
    decimal literals, with an optional sign, digits, an optional fraction,
    and at least one digit in all. *)
Definition decimal_literal (s : string) : bool :=
  let body :=
    match s with
    | String c s' => if Ascii.eqb c "-"%char || Ascii.eqb c "+"%char then s' else s
    | EmptyString => s
    end in
  match split_dot body with
  | (a, None) => all_digits a && negb (String.eqb a "")
  | (a, Some b) =>
      all_digits a && all_digits b && negb (String.eqb a "" && String.eqb b "")
  end.

(** The first [n] decimals of [r / d], stopping when none are left. *)
Fixpoint decimals (n : nat) (r d : Z) : string :=
  match n with
  | O => ""
  | S n' =>
      if (r =? 0)%Z then ""
      else pretty (10 * r / d)%Z +:+ decimals n' ((10 * r) mod d)%Z d
  end.

(** [str] of a float, as far as the examples go: the decimal writing with
    the integer part, a point, and the decimals, at least one (["0.1"],
    ["0.5"], ["1.0"]). *)
Definition decimal_repr (q : Q) : string :=
  let n := Z.abs (Qnum q) in
  let d := Z.pos (Qden q) in
  let frac := decimals 17 (n mod d)%Z d in
  (if (Qnum q <? 0)%Z then "-" else "") +:+ pretty (n / d)%Z +:+ "." +:+
  (if String.eqb frac "" then "0" else frac).

Definition platform : Platform := {|
  temperature_util_convert := convert temperature_table;
  pressure_util_convert := convert pressure_table;
  distance_util_convert := convert distance_table;
  speed_util_convert := convert speed_table;
  float_parses := decimal_literal;
  float_repr := decimal_repr
|}.

End Reference.

(** ** Vocabulary of the statements *)

(** A method called on [self] leaves [self] as it was and, when it returns,
    returns a value that satisfies [Q]. *)
Definition returns {A} (self : WeatherEntity) (m : M A) (Q : A → Prop) : Prop :=
  final m self = self ∧ ∀ a, result m self = Ok a → Q a.

(** Two calls, on [self1] and on [self2], leave the entities as they were and
    have the same outcome: the same exception, or values related by [R]. *)
Definition same_outcome {A} (self1 self2 : WeatherEntity) (m1 m2 : M A)
    (R : A → A → Prop) : Prop :=
  final m1 self1 = self1 ∧ final m2 self2 = self2 ∧
  match result m1 self1, result m2 self2 with
  | Ok a, Ok b => R a b
  | Raise x, Raise y => x = y
  | _, _ => False
  end.

(** The keys [attr] and [attr_unit] of the state go together: both absent,
    or both present with [unit] as the unit. *)
Definition paired (attr attr_unit : string) (unit : PyVal) (data : gmap string Attr)
  : Prop :=
  (data !! attr = None ∧ data !! attr_unit = None) ∨
  (is_Some (data !! attr) ∧ data !! attr_unit = Some (AVal unit)).

(** The unit keys of the state. *)
Definition unit_keys : list string :=
  [ATTR_WEATHER_TEMPERATURE_UNIT; ATTR_WEATHER_PRESSURE_UNIT;
   ATTR_WEATHER_WIND_SPEED_UNIT; ATTR_WEATHER_VISIBILITY_UNIT;
   ATTR_WEATHER_PRECIPITATION_UNIT].

(** The converted fields of a forecast entry, each with the unit key of its
    kind. *)
Definition forecast_units : list (string * string) :=
  [(ATTR_FORECAST_TEMP, ATTR_WEATHER_TEMPERATURE_UNIT);
   (ATTR_FORECAST_TEMP_LOW, ATTR_WEATHER_TEMPERATURE_UNIT);
   (ATTR_FORECAST_PRESSURE, ATTR_WEATHER_PRESSURE_UNIT);
   (ATTR_FORECAST_WIND_SPEED, ATTR_WEATHER_WIND_SPEED_UNIT);
   (ATTR_FORECAST_PRECIPITATION, ATTR_WEATHER_PRECIPITATION_UNIT)].

(** The converted readings of the state, each with its unit key. *)
Definition current_units : list (string * string) :=
  [(ATTR_WEATHER_TEMPERATURE, ATTR_WEATHER_TEMPERATURE_UNIT);
   (ATTR_WEATHER_PRESSURE, ATTR_WEATHER_PRESSURE_UNIT);
   (ATTR_WEATHER_WIND_SPEED, ATTR_WEATHER_WIND_SPEED_UNIT);
   (ATTR_WEATHER_VISIBILITY, ATTR_WEATHER_VISIBILITY_UNIT)].

(** The pairing of values and units read over the whole state: a converted
    reading has its unit key next to it, and a converted field of a forecast
    entry has the unit key of its kind in the entry or in the state. *)
Definition every_value_has_unit (data : gmap string Attr) : Prop :=
  (∀ attr attr_unit, (attr, attr_unit) ∈ current_units →
     is_Some (data !! attr) → is_Some (data !! attr_unit)) ∧
  (∀ entries entry key attr_unit,
     data !! ATTR_FORECAST = Some (AForecast entries) →
     entry ∈ entries → (key, attr_unit) ∈ forecast_units →
     is_Some (entry !! key) →
     is_Some (entry !! attr_unit) ∨ is_Some (data !! attr_unit)).

(** The transition of the specification for one kind: the candidate of the
    options is accepted when it is present, valid for the kind, and the
    native unit of the entity is valid for the kind; the override is unset
    otherwise. *)
Definition resolve_override (weather_options : option (gmap string PyVal))
    (conf : string) (valid : list string) (native_unit : PyVal) : PyVal :=
  match weather_options with
  | Some opts =>
      match opts !! conf with
      | Some candidate =>
          if py_in candidate valid && py_in native_unit valid then candidate else VNone
      | None => VNone
      end
  | None => VNone
  end.

(** What holds of [data] after each block of the current readings: the four
    converted readings are paired with the unit of [self]. *)
Definition readings_paired (self : WeatherEntity) (data : gmap string Attr) : Prop :=
  paired ATTR_WEATHER_TEMPERATURE ATTR_WEATHER_TEMPERATURE_UNIT (temperature_unit self) data ∧
  paired ATTR_WEATHER_PRESSURE ATTR_WEATHER_PRESSURE_UNIT (pressure_unit self) data ∧
  paired ATTR_WEATHER_WIND_SPEED ATTR_WEATHER_WIND_SPEED_UNIT (wind_speed_unit self) data ∧
  paired ATTR_WEATHER_VISIBILITY ATTR_WEATHER_VISIBILITY_UNIT (visibility_unit self) data.

(** [data] before the forecast is written. *)
Definition before_forecast (self : WeatherEntity) (data : gmap string Attr) : Prop :=
  readings_paired self data ∧ data !! ATTR_FORECAST = None.

(** The forecast of the state against the forecast of the entity: absent
    with it, or as long, each entry with the unit keys its source had. *)
Definition forecast_kept (self : WeatherEntity) (data : gmap string Attr) : Prop :=
  match forecast self with
  | None => data !! ATTR_FORECAST = None
  | Some entries =>
      ∃ entries', data !! ATTR_FORECAST = Some (AForecast entries') ∧
        Forall2 (λ entry entry', ∀ k, k ∈ unit_keys → entry' !! k = entry !! k)
          entries entries'
  end.

(** What [async_registry_entry_updated] stores for one kind, read off its
    five [if] statements. *)
Definition stored_option (weather_options : option (gmap string PyVal))
    (conf : string) (native_unit : PyVal) : PyVal :=
  if truthy_options weather_options then
    let custom_unit := py_get (default ∅ weather_options) conf in
    if truthy custom_unit && py_in custom_unit (VALID_UNITS !!! conf)
       && py_in native_unit (VALID_UNITS !!! conf)
    then custom_unit
    else VNone
  else VNone.

(** [self._attr_native_wind_speed = v] *)
Definition with_native_wind_speed (v : PyVal) (self : WeatherEntity) : WeatherEntity :=
  {| hass_config_units := hass_config_units self;
     registry_entry := registry_entry self;
     _attr_forecast := _attr_forecast self;
     _attr_humidity := _attr_humidity self;
     _attr_ozone := _attr_ozone self;
     _attr_precision := _attr_precision self;
     _attr_native_pressure := _attr_native_pressure self;
     _attr_native_pressure_unit := _attr_native_pressure_unit self;
     _attr_native_temperature_unit := _attr_native_temperature_unit self;
     _attr_native_temperature := _attr_native_temperature self;
     _attr_native_visibility := _attr_native_visibility self;
     _attr_native_visibility_unit := _attr_native_visibility_unit self;
     _attr_native_precipitation_unit := _attr_native_precipitation_unit self;
     _attr_wind_bearing := _attr_wind_bearing self;
     _attr_native_wind_speed := v;
     _attr_native_wind_speed_unit := _attr_native_wind_speed_unit self;
     _weather_option_temperature_uom := _weather_option_temperature_uom self;
     _weather_option_pressure_uom := _weather_option_pressure_uom self;
     _weather_option_visibility_uom := _weather_option_visibility_uom self;
     _weather_option_precipitation_uom := _weather_option_precipitation_uom self;
     _weather_option_wind_speed_uom := _weather_option_wind_speed_uom self |}.

(** Two entities that differ in the native wind speed at most. *)
Definition same_but_wind_speed (self1 self2 : WeatherEntity) : Prop :=
  with_native_wind_speed VNone self1 = with_native_wind_speed VNone self2.

(** [state_attributes] read twice in a row. *)
Definition state_attributes_twice {Py : Platform}
  : M (gmap string Attr * gmap string Attr) :=
  bind state_attributes (λ first, bind state_attributes (λ second, ret (first, second))).

(** ** Sample entities *)

(** An entity of a metric data source (°C, hPa, m/s, km, mm) without
    overrides and without a declared precision; only the temperature, the
    humidity, the wind speed and the forecast are given. *)
Definition sample_entity (units : UnitSystem) (entry : option RegistryEntry)
    (temperature humidity wind_speed : PyVal)
    (forecast : option (list (gmap string PyVal))) : WeatherEntity :=
  {| hass_config_units := units;
     registry_entry := entry;
     _attr_forecast := forecast;
     _attr_humidity := humidity;
     _attr_ozone := VNone;
     _attr_precision := None;
     _attr_native_pressure := VNone;
     _attr_native_pressure_unit := VStr PRESSURE_HPA;
     _attr_native_temperature_unit := Some (VStr TEMP_CELSIUS);
     _attr_native_temperature := Some temperature;
     _attr_native_visibility := VNone;
     _attr_native_visibility_unit := VStr LENGTH_KILOMETERS;
     _attr_native_precipitation_unit := VStr LENGTH_MILLIMETERS;
     _attr_wind_bearing := VNone;
     _attr_native_wind_speed := wind_speed;
     _attr_native_wind_speed_unit := VStr SPEED_METERS_PER_SECOND;
     _weather_option_temperature_uom := VNone;
     _weather_option_pressure_uom := VNone;
     _weather_option_visibility_uom := VNone;
     _weather_option_precipitation_uom := VNone;
     _weather_option_wind_speed_uom := VNone |}.

Definition metric_celsius : UnitSystem :=
  {| is_metric := true; units_temperature_unit := TEMP_CELSIUS |}.
Definition metric_fahrenheit : UnitSystem :=
  {| is_metric := true; units_temperature_unit := TEMP_FAHRENHEIT |}.
Definition imperial_fahrenheit : UnitSystem :=
  {| is_metric := false; units_temperature_unit := TEMP_FAHRENHEIT |}.

(** A forecast of one entry that has a time and a condition, and no
    temperature. *)
Definition entry_without_temperature : gmap string PyVal :=
  <[ATTR_FORECAST_TIME := VStr "2022-06-01T12:00:00+00:00"]>
  (<[ATTR_FORECAST_CONDITION := VStr "sunny"]> ∅).

Definition entity_without_forecast_temperature : WeatherEntity :=
  sample_entity imperial_fahrenheit None VNone VNone VNone
    (Some [entry_without_temperature]).

(** A forecast of one entry: 20.0 °C by day, 0 °C at night. *)
Definition entry_freezing_night : gmap string PyVal :=
  <[ATTR_FORECAST_TIME := VStr "2022-06-01T12:00:00+00:00"]>
  (<[ATTR_FORECAST_TEMP := VFloat 20]>
  (<[ATTR_FORECAST_TEMP_LOW := VInt 0]> ∅)).

Definition entity_freezing_night : WeatherEntity :=
  sample_entity imperial_fahrenheit None VNone VNone VNone (Some [entry_freezing_night]).

(** No current temperature, and a forecast of one entry at 20.0 °C. *)
Definition entry_mild : gmap string PyVal :=
  <[ATTR_FORECAST_TIME := VStr "2022-06-01T12:00:00+00:00"]>
  (<[ATTR_FORECAST_TEMP := VFloat 20]> ∅).

Definition entity_forecast_only : WeatherEntity :=
  sample_entity imperial_fahrenheit None VNone VNone VNone (Some [entry_mild]).

(** 20.0 °C and 55.6 % now, shown in °F; the wind speed is given. *)
Definition entity_mild (wind_speed : PyVal) : WeatherEntity :=
  sample_entity imperial_fahrenheit None (VFloat 20) (VFloat (556 # 10)) wind_speed
    (Some []).

(** Options that ask for knots as the wind speed and °F as the temperature. *)
Definition options_knots : RegistryEntry :=
  {| options :=
       <[DOMAIN := <[CONF_WIND_SPEED_UOM := VStr "kn"]>
                   (<[CONF_TEMPERATURE_UOM := VStr TEMP_FAHRENHEIT]> ∅)]> ∅ |}.

Definition entity_knots : WeatherEntity :=
  sample_entity metric_celsius (Some options_knots) (VFloat 20) VNone (VFloat 5) None.

(** The same entity as [entity_knots], with overrides left from before. *)
Definition entity_knots_stale : WeatherEntity :=
  set_weather_options (VStr TEMP_CELSIUS) (VStr PRESSURE_MMHG) (VStr LENGTH_MILES)
    (VStr LENGTH_INCHES) (VStr SPEED_KILOMETERS_PER_HOUR) entity_knots.

(** The states the reference platform gives for the sample entities. *)

Definition state_freezing_night : gmap string Attr :=
  <[ATTR_WEATHER_PRECIPITATION_UNIT := AVal (VStr LENGTH_INCHES)]>
  (<[ATTR_FORECAST :=
       AForecast [<[ATTR_FORECAST_TEMP := VInt 68]> entry_freezing_night]]> ∅).

Definition state_forecast_only : gmap string Attr :=
  <[ATTR_WEATHER_PRECIPITATION_UNIT := AVal (VStr LENGTH_INCHES)]>
  (<[ATTR_FORECAST := AForecast [<[ATTR_FORECAST_TEMP := VInt 68]> entry_mild]]> ∅).

Definition state_mild : gmap string Attr :=
  <[ATTR_WEATHER_TEMPERATURE := AVal (VInt 68)]>
  (<[ATTR_WEATHER_TEMPERATURE_UNIT := AVal (VStr TEMP_FAHRENHEIT)]>
  (<[ATTR_WEATHER_HUMIDITY := AVal (VInt 56)]>
  (<[ATTR_WEATHER_PRECIPITATION_UNIT := AVal (VStr LENGTH_INCHES)]>
  (<[ATTR_FORECAST := AForecast []]> ∅)))).

(** ** [async_internal_added_to_hass] *)

(** The method of the base class [Entity], which is awaited first, is not
    part of the module: it is the parameter [super_added].  A registry entry
    is an object, so [not self.registry_entry] holds for None only. *)
Definition async_internal_added_to_hass (super_added : M unit) : M unit :=
  bind super_added (λ _,
  bind (reads registry_entry) (λ entry,
  match entry with
  | None => ret tt
  | Some _ => async_registry_entry_updated
  end)).

(** ** Vocabulary of the further statements *)

(** A predicate on [data] that looks at the keys [attr] and [attr_unit]
    only. *)
Definition by_lookups (attr attr_unit : string)
    (S : option Attr → option Attr → Prop) (data : gmap string Attr) : Prop :=
  S (data !! attr) (data !! attr_unit).

(** What a block of the current readings leaves under its two keys [x] and
    [y]: nothing, when the reading is None, [float] refuses it or the
    conversion raises ValueError; the rounded conversion and the unit
    otherwise. *)
Definition reading_outcome (value : PyVal) (checked : Res unit) (converted : Res PyVal)
    (round : PyVal → Res PyVal) (unit : PyVal) (x y : option Attr) : Prop :=
  (x = None ∧ y = None ∧
   (value = VNone ∨ checked = Raise ValueError ∨ converted = Raise ValueError)) ∨
  (∃ c r, value ≠ VNone ∧ checked = Ok tt ∧ converted = Ok c ∧ round c = Ok r ∧
          x = Some (AVal r) ∧ y = Some (AVal unit)).

(** What the loop leaves under a converted key of a forecast entry whose
    source had [native] there: the rounded conversion, or [native] itself
    when the conversion raises ValueError. *)
Definition field_outcome (converted : Res PyVal) (round : PyVal → Res PyVal)
    (native : PyVal) (out : option PyVal) : Prop :=
  (∃ c r, converted = Ok c ∧ round c = Ok r ∧ out = Some r) ∨
  (converted = Raise ValueError ∧ out = Some native).

(** The keys of a forecast entry that the loop converts. *)
Definition converted_keys : list string :=
  [ATTR_FORECAST_TEMP; ATTR_FORECAST_TEMP_LOW; ATTR_FORECAST_PRESSURE;
   ATTR_FORECAST_WIND_SPEED; ATTR_FORECAST_PRECIPITATION].

(** The four fields of a forecast entry converted under a truth test, each
    with the key of its conversion and its two unit properties. *)
Definition guarded_fields
  : list (string * string * (WeatherEntity → PyVal) * (WeatherEntity → PyVal)) :=
  [(ATTR_FORECAST_TEMP_LOW, CONF_TEMPERATURE_UOM, native_temperature_unit, temperature_unit);
   (ATTR_FORECAST_PRESSURE, CONF_PRESSURE_UOM, native_pressure_unit, pressure_unit);
   (ATTR_FORECAST_WIND_SPEED, CONF_WIND_SPEED_UOM, native_wind_speed_unit, wind_speed_unit);
   (ATTR_FORECAST_PRECIPITATION, CONF_PRECIPITATION_UOM, native_precipitation_unit,
    precipitation_unit)].

(** What the loop makes of one forecast entry. *)
Definition entry_outcome {Py : Platform} (self : WeatherEntity)
    (entry entry' : gmap string PyVal) : Prop :=
  dom entry' = dom entry ∧
  (∀ k, k ∉ converted_keys → entry' !! k = entry !! k) ∧
  (∃ t, entry !! ATTR_FORECAST_TEMP = Some t ∧
     field_outcome
       (temperature_util_convert t (native_temperature_unit self) (temperature_unit self))
       (round_temperature (precision_digits self)) t (entry' !! ATTR_FORECAST_TEMP)) ∧
  (∀ key conf native_unit unit, (key, conf, native_unit, unit) ∈ guarded_fields →
     if truthy (py_get entry key)
     then field_outcome
            ((UNIT_CONVERSIONS !!! conf) (py_get entry key) (native_unit self) (unit self))
            (λ c, py_round_n c ROUNDING_PRECISION) (py_get entry key) (entry' !! key)
     else entry' !! key = entry !! key).

(** The keys of the state. *)
Definition state_keys : gset string :=
  {[ATTR_WEATHER_TEMPERATURE; ATTR_WEATHER_TEMPERATURE_UNIT; ATTR_WEATHER_HUMIDITY;
    ATTR_WEATHER_OZONE; ATTR_WEATHER_PRESSURE; ATTR_WEATHER_PRESSURE_UNIT;
    ATTR_WEATHER_WIND_BEARING; ATTR_WEATHER_WIND_SPEED; ATTR_WEATHER_WIND_SPEED_UNIT;
    ATTR_WEATHER_VISIBILITY; ATTR_WEATHER_VISIBILITY_UNIT;
    ATTR_WEATHER_PRECIPITATION_UNIT; ATTR_FORECAST]}.

(** ** Further sample entities *)

(** A forecast entry with every field; no wind. *)
Definition entry_full : gmap string PyVal :=
  <[ATTR_FORECAST_TIME := VStr "2022-06-01T12:00:00+00:00"]>
  (<[ATTR_FORECAST_CONDITION := VStr "rainy"]>
  (<[ATTR_FORECAST_PRECIPITATION_PROBABILITY := VInt 80]>
  (<[ATTR_FORECAST_PRECIPITATION := VFloat (254 # 100)]>
  (<[ATTR_FORECAST_PRESSURE := VFloat (101325 # 100)]>
  (<[ATTR_FORECAST_TEMP := VFloat 20]>
  (<[ATTR_FORECAST_TEMP_LOW := VFloat (125 # 10)]>
  (<[ATTR_FORECAST_WIND_BEARING := VStr "NW"]>
  (<[ATTR_FORECAST_WIND_SPEED := VInt 0]> ∅)))))))).

(** An entity of a metric data source with every reading, shown in an
    imperial system set to °F. *)
Definition entity_full : WeatherEntity :=
  {| hass_config_units := imperial_fahrenheit;
     registry_entry := None;
     _attr_forecast := Some [entry_full];
     _attr_humidity := VFloat (556 # 10);
     _attr_ozone := VInt 300;
     _attr_precision := None;
     _attr_native_pressure := VFloat (101325 # 100);
     _attr_native_pressure_unit := VStr PRESSURE_HPA;
     _attr_native_temperature_unit := Some (VStr TEMP_CELSIUS);
     _attr_native_temperature := Some (VFloat 20);
     _attr_native_visibility := VInt 10;
     _attr_native_visibility_unit := VStr LENGTH_KILOMETERS;
     _attr_native_precipitation_unit := VStr LENGTH_MILLIMETERS;
     _attr_wind_bearing := VStr "NW";
     _attr_native_wind_speed := VFloat 5;
     _attr_native_wind_speed_unit := VStr SPEED_METERS_PER_SECOND;
     _weather_option_temperature_uom := VNone;
     _weather_option_pressure_uom := VNone;
     _weather_option_visibility_uom := VNone;
     _weather_option_precipitation_uom := VNone;
     _weather_option_wind_speed_uom := VNone |}.

(** The entry and the state the reference platform gives for it. *)
Definition entry_full_shown : gmap string PyVal :=
  <[ATTR_FORECAST_TEMP := VInt 68]>
  (<[ATTR_FORECAST_TEMP_LOW := VFloat (109 # 2)]>
  (<[ATTR_FORECAST_PRESSURE := VFloat (748 # 25)]>
  (<[ATTR_FORECAST_PRECIPITATION := VFloat (1 # 10)]> entry_full))).

Definition state_full : gmap string Attr :=
  <[ATTR_WEATHER_TEMPERATURE := AVal (VInt 68)]>
  (<[ATTR_WEATHER_TEMPERATURE_UNIT := AVal (VStr TEMP_FAHRENHEIT)]>
  (<[ATTR_WEATHER_HUMIDITY := AVal (VInt 56)]>
  (<[ATTR_WEATHER_OZONE := AVal (VInt 300)]>
  (<[ATTR_WEATHER_PRESSURE := AVal (VFloat (748 # 25))]>
  (<[ATTR_WEATHER_PRESSURE_UNIT := AVal (VStr PRESSURE_INHG)]>
  (<[ATTR_WEATHER_WIND_BEARING := AVal (VStr "NW")]>
  (<[ATTR_WEATHER_WIND_SPEED := AVal (VFloat (559 # 50))]>
  (<[ATTR_WEATHER_WIND_SPEED_UNIT := AVal (VStr SPEED_MILES_PER_HOUR)]>
  (<[ATTR_WEATHER_VISIBILITY := AVal (VFloat (621 # 100))]>
  (<[ATTR_WEATHER_VISIBILITY_UNIT := AVal (VStr LENGTH_MILES)]>
  (<[ATTR_WEATHER_PRECIPITATION_UNIT := AVal (VStr LENGTH_INCHES)]>
  (<[ATTR_FORECAST := AForecast [entry_full_shown]]> ∅)))))))))))).

(** Options that ask for km/h and mmHg, and an entity that has them. *)
Definition options_kmh : gmap string PyVal :=
  <[CONF_WIND_SPEED_UOM := VStr SPEED_KILOMETERS_PER_HOUR]>
  (<[CONF_PRESSURE_UOM := VStr PRESSURE_MMHG]> ∅).

Definition entry_kmh : RegistryEntry := {| options := <[DOMAIN := options_kmh]> ∅ |}.

Definition entity_kmh : WeatherEntity :=
  sample_entity imperial_fahrenheit (Some entry_kmh) (VFloat 20) VNone (VFloat 5) None.

(** A registry entry without options of the domain, on an entity that has
    overrides from before. *)
Definition entry_plain : RegistryEntry := {| options := ∅ |}.

Definition entity_plain_stale : WeatherEntity :=
  set_weather_options (VStr TEMP_FAHRENHEIT) (VStr PRESSURE_MMHG) (VStr LENGTH_MILES)
    (VStr LENGTH_INCHES) (VStr SPEED_KILOMETERS_PER_HOUR)
    (sample_entity metric_celsius (Some entry_plain) (VFloat 20) VNone (VFloat 5) None).

(** A forecast whose second entry has no temperature. *)
Definition entity_second_entry_bare : WeatherEntity :=
  sample_entity metric_celsius None VNone VNone VNone
    (Some [entry_mild; entry_without_temperature]).

(** Options with a pressure unit that is none, on an entity whose native
    visibility unit is none either. *)
Definition options_odd : gmap string PyVal :=
  <[CONF_PRESSURE_UOM := VStr "atm"]> (<[CONF_VISIBILITY_UOM := VStr LENGTH_MILES]> ∅).

Definition entry_odd : RegistryEntry := {| options := <[DOMAIN := options_odd]> ∅ |}.

Definition entity_odd : WeatherEntity :=
  {| hass_config_units := metric_celsius;
     registry_entry := Some entry_odd;
     _attr_forecast := None;
     _attr_humidity := VNone;
     _attr_ozone := VNone;
     _attr_precision := None;
     _attr_native_pressure := VStr "1013";
     _attr_native_pressure_unit := VStr PRESSURE_HPA;
     _attr_native_temperature_unit := Some (VStr TEMP_CELSIUS);
     _attr_native_temperature := Some VNone;
     _attr_native_visibility := VNone;
     _attr_native_visibility_unit := VStr "ft";
     _attr_native_precipitation_unit := VNone;
     _attr_wind_bearing := VNone;
     _attr_native_wind_speed := VNone;
     _attr_native_wind_speed_unit := VNone;
     _weather_option_temperature_uom := VNone;
     _weather_option_pressure_uom := VStr PRESSURE_MMHG;
     _weather_option_visibility_uom := VStr LENGTH_MILES;
     _weather_option_precipitation_uom := VNone;
     _weather_option_wind_speed_uom := VNone |}.

(** A platform whose conversions refuse a value that is not an int or a
    float with TypeError, before anything else, and are the reference
    conversions otherwise. *)
Definition strict_convert (table : list (string * (Q * Q)))
    (value from_unit to_unit : PyVal) : Res PyVal :=
  match Reference.number value with
  | Some _ => Reference.convert table value from_unit to_unit
  | None => Raise TypeError
  end.

Definition strict_platform : Platform := {|
  temperature_util_convert := strict_convert Reference.temperature_table;
  pressure_util_convert := strict_convert Reference.pressure_table;
  distance_util_convert := strict_convert Reference.distance_table;
  speed_util_convert := strict_convert Reference.speed_table;
  float_parses := Reference.decimal_literal;
  float_repr := Reference.decimal_repr
|}.

(** * Properties *)

(** ** Rules for [returns] *)

Section Returns.
Context {A B : Type}.
Implicit Types (self : WeatherEntity).

Lemma returns_ret self (a : A) (Q : A → Prop) : Q a → returns self (ret a) Q.
Proof. intros HQ. split; [done|]. intros a' [= <-]. done. Qed.

Lemma returns_raise self (x : PyExn) (Q : A → Prop) : returns self (raise x) Q.
Proof. split; [done|]. intros a [=]. Qed.

Lemma returns_reads self (f : WeatherEntity → A) (Q : A → Prop) :
  Q (f self) → returns self (reads f) Q.
Proof. intros HQ. split; [done|]. intros a [= <-]. done. Qed.

Lemma returns_lift self (r : Res A) (Q : A → Prop) :
  (∀ a, r = Ok a → Q a) → returns self (lift r) Q.
Proof. intros HQ. split; [done|]. intros a Ha. apply HQ. exact Ha. Qed.

Lemma returns_bind self (m : M A) (k : A → M B) (Q : A → Prop) (R : B → Prop) :
  returns self m Q → (∀ a, Q a → returns self (k a) R) → returns self (bind m k) R.
Proof.
  unfold returns, final, result, bind. intros [Hs HQ] Hk.
  destruct (m self) as [[a|x] self']; simpl in *; subst self'.
  - apply Hk, HQ. reflexivity.
  - split; [done|]. intros b [=].
Qed.

Lemma returns_suppress self (E : PyExn) (body : M A) (dflt : A) (Q : A → Prop) :
  returns self body Q → Q dflt → returns self (suppress E body dflt) Q.
Proof.
  unfold returns, final, result, suppress. intros [Hs HQ] Hd.
  destruct (body self) as [[a|x] self']; simpl in *; subst self'.
  - split; [done|]. exact HQ.
  - destruct (decide (x = E)); simpl; (split; [done|]); intros a [=]. by subst.
Qed.

Lemma returns_weaken self (m : M A) (Q Q' : A → Prop) :
  returns self m Q → (∀ a, Q a → Q' a) → returns self m Q'.
Proof. intros [Hs HQ] Himp. split; [done|]. intros a Ha. by apply Himp, HQ. Qed.

End Returns.

Lemma returns_for_each {A B} (self : WeatherEntity) (f : A → M B)
    (Q : A → B → Prop) (l : list A) :
  (∀ x, x ∈ l → returns self (f x) (Q x)) →
  returns self (for_each f l) (λ ys, Forall2 Q l ys).
Proof.
  induction l as [|x l IH]; intros Hf; simpl.
  - apply returns_ret. constructor.
  - eapply returns_bind; [apply Hf; left|]. intros y Hy.
    eapply returns_bind.
    + apply IH. intros x' Hx'. apply Hf. by right.
    + intros ys Hys. apply returns_ret. by constructor.
Qed.

(** ** Rules for [same_outcome] *)

Section SameOutcome.
Context {A B : Type}.
Implicit Types (self : WeatherEntity).

Lemma same_outcome_ret self1 self2 (a b : A) (R : A → A → Prop) :
  R a b → same_outcome self1 self2 (ret a) (ret b) R.
Proof. intros HR. by repeat split. Qed.

Lemma same_outcome_reads self1 self2 (f : WeatherEntity → A) (R : A → A → Prop) :
  R (f self1) (f self2) → same_outcome self1 self2 (reads f) (reads f) R.
Proof. intros HR. by repeat split. Qed.

Lemma same_outcome_lift self1 self2 (r : Res A) :
  same_outcome self1 self2 (lift r) (lift r) eq.
Proof. repeat split. unfold result, lift; simpl. by destruct r. Qed.

Lemma same_outcome_bind self1 self2 (m1 m2 : M A) (k1 k2 : A → M B)
    (R : A → A → Prop) (R' : B → B → Prop) :
  same_outcome self1 self2 m1 m2 R →
  (∀ a b, R a b → same_outcome self1 self2 (k1 a) (k2 b) R') →
  same_outcome self1 self2 (bind m1 k1) (bind m2 k2) R'.
Proof.
  unfold same_outcome, final, result, bind. intros (Hs1 & Hs2 & HR) Hk.
  destruct (m1 self1) as [[a|x] s1], (m2 self2) as [[b|y] s2];
    simpl in *; subst s1 s2; try done.
  by apply Hk.
Qed.

Lemma same_outcome_suppress self1 self2 (E : PyExn) (body1 body2 : M A) (dflt : A) :
  same_outcome self1 self2 body1 body2 eq →
  same_outcome self1 self2 (suppress E body1 dflt) (suppress E body2 dflt) eq.
Proof.
  unfold same_outcome, final, result, suppress. intros (Hs1 & Hs2 & HR).
  destruct (body1 self1) as [[a|x] s1], (body2 self2) as [[b|y] s2];
    simpl in *; subst; try done.
  by destruct (decide (y = E)).
Qed.

End SameOutcome.

Lemma same_outcome_for_each {A B} (self1 self2 : WeatherEntity) (f : A → M B)
    (l : list A) :
  (∀ x, same_outcome self1 self2 (f x) (f x) eq) →
  same_outcome self1 self2 (for_each f l) (for_each f l) eq.
Proof.
  intros Hf. induction l as [|x l IH]; simpl.
  - by apply same_outcome_ret.
  - eapply same_outcome_bind; [apply Hf|]. intros y ? <-.
    eapply (same_outcome_bind _ _ _ _ _ _ eq); [apply IH|]. intros ys ? <-.
    by apply same_outcome_ret.
Qed.

(** The primitives with their strongest postcondition, to step through a
    sequence of statements. *)

Lemma returns_reads_eq {A} (self : WeatherEntity) (f : WeatherEntity → A) :
  returns self (reads f) (λ a, a = f self).
Proof. by apply returns_reads. Qed.

Lemma returns_lift_eq {A} (self : WeatherEntity) (r : Res A) :
  returns self (lift r) (λ a, r = Ok a).
Proof. by apply returns_lift. Qed.

Lemma returns_native_temperature (self : WeatherEntity) :
  returns self native_temperature (λ v, _attr_native_temperature self = Some v).
Proof.
  unfold native_temperature.
  eapply returns_bind; [apply returns_reads_eq|]. intros a ->.
  destruct (_attr_native_temperature self); [by apply returns_ret|apply returns_raise].
Qed.

Ltac returns_step :=
  lazymatch goal with
  | |- returns _ (bind (reads _) _) _ =>
      eapply returns_bind; [apply returns_reads_eq|]; intros ? ->
  | |- returns _ (bind (lift _) _) _ =>
      eapply returns_bind; [apply returns_lift_eq|]; intros ? ?
  | |- returns _ (bind native_temperature _) _ =>
      eapply returns_bind; [apply returns_native_temperature|]; intros ? ?
  | |- returns _ (ret _) _ => apply returns_ret
  | |- returns _ (raise _) _ => apply returns_raise
  end.

(** No unit key of the state is a converted field of a forecast entry. *)
Lemma unit_key_not_converted (k : string) :
  k ∈ unit_keys →
  ATTR_FORECAST_TEMP ≠ k ∧ ATTR_FORECAST_TEMP_LOW ≠ k ∧ ATTR_FORECAST_PRESSURE ≠ k ∧
  ATTR_FORECAST_WIND_SPEED ≠ k ∧ ATTR_FORECAST_PRECIPITATION ≠ k.
Proof.
  unfold unit_keys. rewrite !elem_of_cons, elem_of_nil.
  intros [->|[->|[->|[->|[->|[]]]]]]; repeat split; discriminate.
Qed.

(** ** What each block of [state_attributes] does to [data] *)

Section Blocks.
Context {Py : Platform}.
Implicit Types (self : WeatherEntity) (data : gmap string Attr).

Lemma temperature_attributes_spec self precision data :
  returns self (temperature_attributes precision data)
    (λ data', data' = data ∨
       ∃ rounded, data' = <[ATTR_WEATHER_TEMPERATURE_UNIT := AVal (temperature_unit self)]>
                            (<[ATTR_WEATHER_TEMPERATURE := AVal rounded]> data)).
Proof.
  unfold temperature_attributes. returns_step.
  destruct (is_not_None a); [|returns_step; by left].
  apply returns_suppress; [|by left].
  repeat returns_step. right. by eexists.
Qed.

Lemma converted_attributes_spec self value conf native_unit unit attr attr_unit data :
  returns self (converted_attributes value conf native_unit unit attr attr_unit data)
    (λ data', data' = data ∨
       ∃ rounded, data' = <[attr_unit := AVal (unit self)]>
                            (<[attr := AVal rounded]> data)).
Proof.
  unfold converted_attributes.
  destruct (is_not_None value); [|returns_step; by left].
  apply returns_suppress; [|by left].
  repeat returns_step. right. by eexists.
Qed.

(** A forecast entry keeps every key but the five converted ones. *)
Lemma forecast_temperature_spec self precision entry new :
  returns self (forecast_temperature precision entry new)
    (λ new', new' = new ∨ ∃ rounded, new' = <[ATTR_FORECAST_TEMP := rounded]> new).
Proof.
  unfold forecast_temperature. returns_step.
  apply returns_suppress; [|by left].
  repeat returns_step. right. by eexists.
Qed.

Lemma forecast_converted_spec self key conf native_unit unit entry new :
  returns self (forecast_converted key conf native_unit unit entry new)
    (λ new', new' = new ∨ ∃ rounded, new' = <[key := rounded]> new).
Proof.
  unfold forecast_converted.
  destruct (truthy _); [|returns_step; by left].
  apply returns_suppress; [|by left].
  repeat returns_step. right. by eexists.
Qed.

Lemma forecast_entry_attributes_spec self precision entry :
  returns self (forecast_entry_attributes precision entry)
    (λ entry', ∀ k, k ∈ unit_keys → entry' !! k = entry !! k).
Proof.
  unfold forecast_entry_attributes.
  assert (Hkeep : ∀ (new new' : gmap string PyVal) key k,
    key ≠ k → new !! k = None →
    (new' = new ∨ ∃ rounded, new' = <[key := rounded]> new) → new' !! k = None).
  { intros new new' key k Hkey Hnew [->|[r ->]]; [done|]. by rewrite lookup_insert_ne. }
  eapply returns_bind; [apply forecast_temperature_spec|]. intros new1 H1.
  eapply returns_bind; [apply forecast_converted_spec|]. intros new2 H2.
  eapply returns_bind; [apply forecast_converted_spec|]. intros new3 H3.
  eapply returns_bind; [apply forecast_converted_spec|]. intros new4 H4.
  eapply returns_bind; [apply forecast_converted_spec|]. intros new5 H5.
  apply returns_ret. intros k Hk.
  apply unit_key_not_converted in Hk as (HT & HL & HP & HW & HR).
  apply lookup_union_r.
  eapply Hkeep, H5; [done|]. eapply Hkeep, H4; [done|]. eapply Hkeep, H3; [done|].
  eapply Hkeep, H2; [done|]. eapply Hkeep, H1; [done|]. apply lookup_empty.
Qed.

End Blocks.

(** ** The state as a whole *)

Lemma paired_empty (attr attr_unit : string) (unit : PyVal) :
  paired attr attr_unit unit ∅.
Proof. left. split; apply lookup_empty. Qed.

Lemma paired_insert_ne (attr attr_unit k : string) (unit : PyVal) (v : Attr)
    (data : gmap string Attr) :
  k ≠ attr → k ≠ attr_unit →
  paired attr attr_unit unit data → paired attr attr_unit unit (<[k := v]> data).
Proof. intros Ha Hu. unfold paired. by rewrite !lookup_insert_ne. Qed.

Lemma paired_insert_pair (attr attr_unit : string) (unit : PyVal) (rounded : PyVal)
    (data : gmap string Attr) :
  paired attr attr_unit unit (<[attr_unit := AVal unit]> (<[attr := AVal rounded]> data)).
Proof.
  right. split; [|apply lookup_insert_eq].
  destruct (decide (attr_unit = attr)) as [->|Hne].
  - rewrite lookup_insert_eq. by eexists.
  - rewrite lookup_insert_ne, lookup_insert_eq by done. by eexists.
Qed.

Ltac solve_paired :=
  first
    [ assumption
    | apply paired_insert_pair
    | apply paired_insert_ne; [discriminate|discriminate|solve_paired] ].

Ltac solve_readings :=
  lazymatch goal with
  | Hinv : before_forecast _ _ |- before_forecast _ _ =>
      destruct Hinv as ((? & ? & ? & ?) & ?);
      split; [repeat split; solve_paired|by rewrite ?lookup_insert_ne by discriminate]
  end.

Lemma before_forecast_step (self : WeatherEntity) (attr attr_unit : string)
    (unit : WeatherEntity → PyVal) (data data' : gmap string Attr) :
  (∀ rounded, before_forecast self data →
     before_forecast self (<[attr_unit := AVal (unit self)]> (<[attr := AVal rounded]> data))) →
  before_forecast self data →
  data' = data ∨
    (∃ rounded, data' = <[attr_unit := AVal (unit self)]> (<[attr := AVal rounded]> data)) →
  before_forecast self data'.
Proof. intros Hstep Hinv [->|[r ->]]; [done|by apply Hstep]. Qed.

Lemma state_attributes_spec {Py : Platform} (self : WeatherEntity) :
  returns self state_attributes
    (λ data, readings_paired self data ∧
             data !! ATTR_WEATHER_PRECIPITATION_UNIT = Some (AVal (precipitation_unit self)) ∧
             forecast_kept self data).
Proof.
  assert (before_forecast self ∅) as I0.
  { split; [repeat split; apply paired_empty|apply lookup_empty]. }
  unfold state_attributes. returns_step.
  eapply returns_bind; [apply temperature_attributes_spec|]. intros data1 H1.
  apply (before_forecast_step self _ _ temperature_unit) in H1;
    [|intros; solve_readings|done].
  clear I0. returns_step.
  eapply (returns_bind _ _ _ (before_forecast self)).
  { destruct (is_not_None _); [|by returns_step].
    returns_step. returns_step. solve_readings. }
  intros data2 I2. clear H1. returns_step.
  eapply (returns_bind _ _ _ (before_forecast self)).
  { returns_step. destruct (is_not_None _); [solve_readings|done]. }
  intros data3 I3. clear I2. returns_step.
  eapply returns_bind; [apply converted_attributes_spec|]. intros data4 H4.
  apply before_forecast_step in H4; [|intros; solve_readings|done].
  clear I3. returns_step.
  eapply (returns_bind _ _ _ (before_forecast self)).
  { returns_step. destruct (is_not_None _); [solve_readings|done]. }
  intros data5 I5. clear H4. returns_step.
  eapply returns_bind; [apply converted_attributes_spec|]. intros data6 H6.
  apply before_forecast_step in H6; [|intros; solve_readings|done].
  clear I5. returns_step.
  eapply returns_bind; [apply converted_attributes_spec|]. intros data7 H7.
  apply before_forecast_step in H7; [|intros; solve_readings|done].
  clear H6. returns_step.
  assert (truthy (precipitation_unit self) = true) as ->.
  { unfold precipitation_unit.
    destruct (truthy (_weather_option_precipitation_uom self)) eqn:Ht; [done|].
    by destruct (is_metric _). }
  eapply (returns_bind _ _ _ (λ data, before_forecast self data ∧
    data !! ATTR_WEATHER_PRECIPITATION_UNIT = Some (AVal (precipitation_unit self)))).
  { returns_step. split; [solve_readings|apply lookup_insert_eq]. }
  intros data8 [((? & ? & ? & ?) & HF) Hp]. clear H7.
  unfold forecast_attributes, forecast_kept. returns_step.
  destruct (forecast self) as [entries|]; [|by returns_step].
  eapply returns_bind.
  { apply returns_for_each. intros entry _. apply forecast_entry_attributes_spec. }
  intros entries' Hall. returns_step.
  split; [repeat split; solve_paired|].
  split; [by rewrite lookup_insert_ne by discriminate|].
  exists entries'. split; [apply lookup_insert_eq|done].
Qed.

(** An invariant of [data] that holds after the temperature block and that
    every later block keeps holds of the state. *)
Lemma state_attributes_inv {Py : Platform} (self : WeatherEntity)
    (I : gmap string Attr → Prop) :
  returns self (temperature_attributes (precision_digits self) ∅) I →
  (∀ data v, I data → I (<[ATTR_WEATHER_HUMIDITY := v]> data)) →
  (∀ data v, I data → I (<[ATTR_WEATHER_OZONE := v]> data)) →
  (∀ data, I data →
     returns self
       (converted_attributes (native_pressure self) CONF_PRESSURE_UOM native_pressure_unit
          pressure_unit ATTR_WEATHER_PRESSURE ATTR_WEATHER_PRESSURE_UNIT data) I) →
  (∀ data v, I data → I (<[ATTR_WEATHER_WIND_BEARING := v]> data)) →
  (∀ data, I data →
     returns self
       (converted_attributes (native_wind_speed self) CONF_WIND_SPEED_UOM
          native_wind_speed_unit wind_speed_unit ATTR_WEATHER_WIND_SPEED
          ATTR_WEATHER_WIND_SPEED_UNIT data) I) →
  (∀ data, I data →
     returns self
       (converted_attributes (native_visibility self) CONF_VISIBILITY_UOM
          native_visibility_unit visibility_unit ATTR_WEATHER_VISIBILITY
          ATTR_WEATHER_VISIBILITY_UNIT data) I) →
  (∀ data v, I data → I (<[ATTR_WEATHER_PRECIPITATION_UNIT := v]> data)) →
  (∀ data v, I data → I (<[ATTR_FORECAST := v]> data)) →
  returns self state_attributes I.
Proof.
  intros Htemp Hhum Hoz Hpres Hbear Hwind Hvis Hprec Hfore.
  unfold state_attributes. returns_step.
  eapply returns_bind; [exact Htemp|]. intros data1 I1. returns_step.
  eapply (returns_bind _ _ _ I).
  { destruct (is_not_None _); [|by returns_step].
    returns_step. returns_step. by apply Hhum. }
  intros data2 I2. returns_step.
  eapply (returns_bind _ _ _ I).
  { returns_step. destruct (is_not_None _); [by apply Hoz|done]. }
  intros data3 I3. returns_step.
  eapply returns_bind; [by apply Hpres|]. intros data4 I4. returns_step.
  eapply (returns_bind _ _ _ I).
  { returns_step. destruct (is_not_None _); [by apply Hbear|done]. }
  intros data5 I5. returns_step.
  eapply returns_bind; [by apply Hwind|]. intros data6 I6. returns_step.
  eapply returns_bind; [by apply Hvis|]. intros data7 I7. returns_step.
  eapply (returns_bind _ _ _ I).
  { returns_step. destruct (truthy _); [by apply Hprec|done]. }
  intros data8 I8. unfold forecast_attributes. returns_step.
  destruct (forecast self); [|by returns_step].
  eapply (returns_bind _ _ _ (λ _, True)).
  { split; [|done]. eapply returns_for_each. intros x _.
    apply forecast_entry_attributes_spec. }
  intros entries' _. returns_step. by apply Hfore.
Qed.

(** A block that writes the pair [attr], [attr_unit] keeps an invariant that
    every such write keeps. *)
Lemma converted_attributes_inv {Py : Platform} (self : WeatherEntity) (value : PyVal)
    (conf : string) (native_unit unit : WeatherEntity → PyVal) (attr attr_unit : string)
    (I : gmap string Attr → Prop) (data : gmap string Attr) :
  (∀ data v w, I data → I (<[attr_unit := w]> (<[attr := v]> data))) →
  I data →
  returns self (converted_attributes value conf native_unit unit attr attr_unit data) I.
Proof.
  intros Hstep Hdata. eapply returns_weaken; [apply converted_attributes_spec|].
  intros data' [->|[r ->]]; [done|by apply Hstep].
Qed.

(** ** The conversion tables *)

Lemma unit_conversions_temperature {Py : Platform} :
  UNIT_CONVERSIONS !!! CONF_TEMPERATURE_UOM = temperature_util_convert.
Proof. vm_compute. reflexivity. Qed.

Lemma valid_units_lookup :
  VALID_UNITS !!! CONF_TEMPERATURE_UOM = VALID_UNITS_TEMPERATURE ∧
  VALID_UNITS !!! CONF_PRESSURE_UOM = VALID_UNITS_PRESSURE ∧
  VALID_UNITS !!! CONF_PRECIPITATION_UOM = VALID_UNITS_PRECIPITATION ∧
  VALID_UNITS !!! CONF_WIND_SPEED_UOM = VALID_UNITS_SPEED ∧
  VALID_UNITS !!! CONF_VISIBILITY_UOM = VALID_UNITS_VISIBILITY.
Proof. repeat split; vm_compute; reflexivity. Qed.

(** ** Reading the state *)

(** C9: reading [state_attributes] changes nothing of the entity: the entity
    after the call is the entity before it, so the five overrides and every
    native reading are as they were, and a second reading right after the
    first gives the same state (or the same exception). *)
Theorem state_attributes_mutates_nothing {Py : Platform} (self : WeatherEntity) :
  final state_attributes self = self ∧
  overrides (final state_attributes self) = overrides self ∧
  result state_attributes_twice self =
    match result state_attributes self with
    | Ok data => Ok (data, data)
    | Raise x => Raise x
    end.
Proof.
  destruct (state_attributes_spec self) as [Hfinal _].
  split; [exact Hfinal|]. split; [by rewrite Hfinal|].
  unfold state_attributes_twice, result, final, bind, ret in *.
  destruct (state_attributes self) as [[data|x] self'] eqn:Hrun; simpl in *; [|done].
  subst self'. by rewrite Hrun.
Qed.

(** C10: the state has the forecast key exactly when the forecast of the
    entity is not None; an empty forecast gives the key with an empty list. *)
Theorem forecast_key_iff_forecast {Py : Platform} (self : WeatherEntity)
    (data : gmap string Attr) :
  result state_attributes self = Ok data →
  (is_Some (data !! ATTR_FORECAST) ↔ forecast self ≠ None) ∧
  (forecast self = Some [] → data !! ATTR_FORECAST = Some (AForecast [])).
Proof.
  intros Hrun. destruct (state_attributes_spec self) as [_ Hspec].
  destruct (Hspec data Hrun) as (_ & _ & Hkept). unfold forecast_kept in Hkept.
  destruct (forecast self) as [entries|].
  - destruct Hkept as (entries' & Hlook & Hall). split.
    + rewrite Hlook. split; [done|]. by eexists.
    + intros [= ->]. apply Forall2_nil_inv_l in Hall as ->. exact Hlook.
  - rewrite Hkept. split; [|done]. split; [by intros [? ?]|done].
Qed.

Lemma forecast_key_iff_forecast_witness :
  (is_Some (state_mild !! ATTR_FORECAST) ↔ forecast (entity_mild VNone) ≠ None) ∧
  (forecast (entity_mild VNone) = Some [] →
   state_mild !! ATTR_FORECAST = Some (AForecast [])).
Proof.
  apply (forecast_key_iff_forecast (Py := Reference.platform)).
  vm_compute. reflexivity.
Defined.

(** C3, as amended: in every state that [state_attributes] returns, each of
    the four converted readings (temperature, pressure, wind speed,
    visibility) is there exactly when its unit key is, and the unit key holds
    the unit the value was converted to; the precipitation unit is always
    there; the forecast is as long as the forecast of the entity and its
    entries have the unit keys of their sources, none added. *)
Theorem readings_come_with_units {Py : Platform} (self : WeatherEntity)
    (data : gmap string Attr) :
  result state_attributes self = Ok data →
  readings_paired self data ∧
  data !! ATTR_WEATHER_PRECIPITATION_UNIT = Some (AVal (precipitation_unit self)) ∧
  forecast_kept self data.
Proof.
  intros Hrun. destruct (state_attributes_spec self) as [_ Hspec]. by apply Hspec.
Qed.

Lemma readings_come_with_units_witness :
  readings_paired (entity_mild VNone) state_mild ∧
  state_mild !! ATTR_WEATHER_PRECIPITATION_UNIT =
    Some (AVal (precipitation_unit (entity_mild VNone))) ∧
  forecast_kept (entity_mild VNone) state_mild.
Proof.
  apply (readings_come_with_units (Py := Reference.platform)).
  vm_compute. reflexivity.
Defined.

(** C3, as stated, fails: without a current temperature the forecast of
    [entity_forecast_only] is converted to 68 °F, and neither its entry nor
    the state has a temperature unit. *)
Lemma forecast_value_without_unit :
  ∃ data,
    result (state_attributes (Py := Reference.platform)) entity_forecast_only = Ok data ∧
    ¬ every_value_has_unit data.
Proof.
  exists state_forecast_only. split; [vm_compute; reflexivity|].
  intros [_ Hforecast].
  destruct (Hforecast [<[ATTR_FORECAST_TEMP := VInt 68]> entry_mild]
              (<[ATTR_FORECAST_TEMP := VInt 68]> entry_mild)
              ATTR_FORECAST_TEMP ATTR_WEATHER_TEMPERATURE_UNIT) as [[v Hv]|[v Hv]].
  - vm_compute. reflexivity.
  - left.
  - unfold forecast_units. left.
  - by eexists.
  - by vm_compute in Hv.
  - by vm_compute in Hv.
Qed.

(** C1 fails on the code: a forecast entry without a temperature makes
    [state_attributes] raise KeyError, whatever the platform. *)
Theorem forecast_entry_without_temperature_raises {Py : Platform} :
  result state_attributes entity_without_forecast_temperature = Raise KeyError.
Proof. vm_compute. reflexivity. Qed.

(** A falsy value of a forecast field is not converted: the field of the
    new entry is not written. *)
Lemma forecast_converted_falsy {Py : Platform} (self : WeatherEntity) (key conf : string)
    (native_unit unit : WeatherEntity → PyVal) (entry new : gmap string PyVal) :
  truthy (py_get entry key) = false →
  forecast_converted key conf native_unit unit entry new self = (Ok new, self).
Proof. intros Hfalsy. unfold forecast_converted. by rewrite Hfalsy. Qed.

(** A truthy value of a forecast field is converted and rounded to 2
    decimals. *)
Lemma forecast_converted_truthy {Py : Platform} (self : WeatherEntity) (key conf : string)
    (native_unit unit : WeatherEntity → PyVal) (entry new : gmap string PyVal)
    (converted rounded : PyVal) :
  truthy (py_get entry key) = true →
  (UNIT_CONVERSIONS !!! conf) (py_get entry key) (native_unit self) (unit self)
    = Ok converted →
  py_round_n converted ROUNDING_PRECISION = Ok rounded →
  forecast_converted key conf native_unit unit entry new self
    = (Ok (<[key := rounded]> new), self).
Proof.
  intros Htruthy Hconv Hround.
  unfold forecast_converted, suppress, bind, reads, lift, ret.
  by rewrite Htruthy, Hconv, Hround.
Qed.

(** So the low of a forecast entry is converted as C2 says whenever it is
    truthy: any number but 0. *)
Lemma forecast_templow_converted {Py : Platform} (self : WeatherEntity) (precision : nat)
    (entry entry' : gmap string PyVal) (low converted rounded : PyVal) :
  entry !! ATTR_FORECAST_TEMP_LOW = Some low →
  truthy low = true →
  temperature_util_convert low (native_temperature_unit self) (temperature_unit self)
    = Ok converted →
  py_round_n converted ROUNDING_PRECISION = Ok rounded →
  result (forecast_entry_attributes precision entry) self = Ok entry' →
  entry' !! ATTR_FORECAST_TEMP_LOW = Some rounded.
Proof.
  intros Hlow Htruthy Hconv Hround Hrun.
  assert (py_get entry ATTR_FORECAST_TEMP_LOW = low) as Hget
    by (unfold py_get; by rewrite Hlow).
  assert (Hkeep : ∀ (new new' : gmap string PyVal) key,
    key ≠ ATTR_FORECAST_TEMP_LOW → new !! ATTR_FORECAST_TEMP_LOW = Some rounded →
    (new' = new ∨ ∃ r, new' = <[key := r]> new) →
    new' !! ATTR_FORECAST_TEMP_LOW = Some rounded).
  { intros new new' key Hkey Hnew [->|[r ->]]; [done|]. by rewrite lookup_insert_ne. }
  assert (returns self (forecast_entry_attributes precision entry)
            (λ e, e !! ATTR_FORECAST_TEMP_LOW = Some rounded)) as [_ Hspec];
    [|by apply Hspec].
  unfold forecast_entry_attributes.
  eapply returns_bind; [apply forecast_temperature_spec|]. intros new1 _.
  eapply (returns_bind _ _ _
            (λ new, new !! ATTR_FORECAST_TEMP_LOW = Some rounded)).
  { unfold returns, final, result.
    erewrite forecast_converted_truthy;
      [|by rewrite Hget|rewrite Hget, unit_conversions_temperature; exact Hconv
       |exact Hround].
    split; [done|]. intros ? [= <-]. apply lookup_insert_eq. }
  intros new2 H2.
  eapply returns_bind; [apply forecast_converted_spec|]. intros new3 H3.
  eapply returns_bind; [apply forecast_converted_spec|]. intros new4 H4.
  eapply returns_bind; [apply forecast_converted_spec|]. intros new5 H5.
  apply returns_ret. apply lookup_union_Some_l.
  eapply Hkeep, H5; [discriminate|]. eapply Hkeep, H4; [discriminate|].
  eapply Hkeep, H3; [discriminate|]. exact H2.
Qed.

(** C2 fails on the code: a low of 0 °C shown in °F stays 0, where the
    conversion rounded to 2 decimals is 32.0; the temperature of the same
    entry, 20.0 °C, is converted to 68. *)
Theorem templow_zero_not_converted :
  ∃ data entry,
    result (state_attributes (Py := Reference.platform)) entity_freezing_night = Ok data ∧
    data !! ATTR_FORECAST = Some (AForecast [entry]) ∧
    entry !! ATTR_FORECAST_TEMP = Some (VInt 68) ∧
    entry !! ATTR_FORECAST_TEMP_LOW = Some (VInt 0) ∧
    match Reference.convert Reference.temperature_table
            (VInt 0) (VStr TEMP_CELSIUS) (VStr TEMP_FAHRENHEIT) with
    | Ok converted => py_round_n converted ROUNDING_PRECISION
    | Raise x => Raise x
    end = Ok (VFloat 32).
Proof.
  exists state_freezing_night, (<[ATTR_FORECAST_TEMP := VInt 68]> entry_freezing_night).
  repeat split; vm_compute; reflexivity.
Qed.

(** ** Precision of the temperature *)

Lemma precision_digits_default {Py : Platform} (self : WeatherEntity) :
  _attr_precision self = None →
  float_repr (1 # 10) = "0.1" →
  precision_digits self =
    if py_eq_str (temperature_unit self) TEMP_CELSIUS then 1 else 0.
Proof.
  intros Hnone Hrepr. unfold precision_digits, precision. rewrite Hnone.
  destruct (py_eq_str _ _).
  - unfold PRECISION_TENTHS, py_str. rewrite Hrepr. reflexivity.
  - vm_compute. reflexivity.
Qed.

(** The temperature block on 20.0 °C shown in °F in whole degrees. *)
Lemma temperature_attributes_fahrenheit {Py : Platform} (self : WeatherEntity)
    (data : gmap string Attr) :
  _attr_native_temperature self = Some (VFloat 20) →
  native_temperature_unit self = VStr TEMP_CELSIUS →
  temperature_unit self = VStr TEMP_FAHRENHEIT →
  temperature_util_convert (VFloat 20) (VStr TEMP_CELSIUS) (VStr TEMP_FAHRENHEIT)
    = Ok (VFloat 68) →
  temperature_attributes 0 data self =
    (Ok (<[ATTR_WEATHER_TEMPERATURE_UNIT := AVal (VStr TEMP_FAHRENHEIT)]>
           (<[ATTR_WEATHER_TEMPERATURE := AVal (VInt 68)]> data)), self).
Proof.
  intros Htemp Hnative Hunit Hconv.
  unfold temperature_attributes, native_temperature, suppress, bind, reads, lift, ret.
  rewrite Htemp. simpl. rewrite Hnative, Hunit, unit_conversions_temperature, Hconv.
  reflexivity.
Qed.

(** C4: without a declared precision the temperature has 1 decimal when its
    unit is °C and none otherwise; so 20.0 °C shown in °F, which the
    conversion makes 68.0, is emitted as 68 with °F as its unit. *)
Theorem default_precision_by_unit {Py : Platform} (self : WeatherEntity)
    (data : gmap string Attr) :
  _attr_precision self = None →
  float_repr (1 # 10) = "0.1" →
  precision_digits self = (if py_eq_str (temperature_unit self) TEMP_CELSIUS then 1 else 0) ∧
  (_attr_native_temperature self = Some (VFloat 20) →
   native_temperature_unit self = VStr TEMP_CELSIUS →
   temperature_unit self = VStr TEMP_FAHRENHEIT →
   temperature_util_convert (VFloat 20) (VStr TEMP_CELSIUS) (VStr TEMP_FAHRENHEIT)
     = Ok (VFloat 68) →
   result state_attributes self = Ok data →
   data !! ATTR_WEATHER_TEMPERATURE = Some (AVal (VInt 68)) ∧
   data !! ATTR_WEATHER_TEMPERATURE_UNIT = Some (AVal (VStr TEMP_FAHRENHEIT))).
Proof.
  intros Hnone Hrepr.
  pose proof (precision_digits_default self Hnone Hrepr) as Hdigits.
  split; [exact Hdigits|]. intros Htemp Hnative Hunit Hconv Hrun.
  rewrite Hunit in Hdigits. change (precision_digits self = 0) in Hdigits.
  pose (I := λ d : gmap string Attr,
    d !! ATTR_WEATHER_TEMPERATURE = Some (AVal (VInt 68)) ∧
    d !! ATTR_WEATHER_TEMPERATURE_UNIT = Some (AVal (VStr TEMP_FAHRENHEIT))).
  assert (Hother : ∀ k v d, k ≠ ATTR_WEATHER_TEMPERATURE →
            k ≠ ATTR_WEATHER_TEMPERATURE_UNIT → I d → I (<[k := v]> d)).
  { intros k v d Hk Hku [Hd Hdu]. split; by rewrite lookup_insert_ne. }
  assert (returns self state_attributes I) as [_ Hspec].
  { apply state_attributes_inv;
      [|intros; try (apply converted_attributes_inv; [intros|done]);
        repeat (apply Hother; [discriminate|discriminate|]); assumption ..].
    rewrite Hdigits. unfold returns, final, result.
    rewrite (temperature_attributes_fahrenheit self ∅ Htemp Hnative Hunit Hconv).
    split; [done|]. intros d [= <-]. split; reflexivity. }
  by apply Hspec.
Qed.

Lemma default_precision_by_unit_witness :
  precision_digits (Py := Reference.platform) (entity_mild VNone) = 0 ∧
  state_mild !! ATTR_WEATHER_TEMPERATURE = Some (AVal (VInt 68)) ∧
  state_mild !! ATTR_WEATHER_TEMPERATURE_UNIT = Some (AVal (VStr TEMP_FAHRENHEIT)).
Proof.
  destruct (default_precision_by_unit (Py := Reference.platform) (entity_mild VNone)
              state_mild eq_refl eq_refl) as [Hdigits Hstate].
  split; [exact Hdigits|].
  apply Hstate; first [reflexivity | vm_compute; reflexivity].
Defined.

(** ** A reading that is not a number *)

(** A block whose reading is a string that [float] refuses writes nothing. *)
Lemma converted_attributes_non_numeric {Py : Platform} (self : WeatherEntity) (s conf : string)
    (native_unit unit : WeatherEntity → PyVal) (attr attr_unit : string)
    (data : gmap string Attr) :
  float_parses s = false →
  converted_attributes (VStr s) conf native_unit unit attr attr_unit data self
    = (Ok data, self).
Proof.
  intros Hs. unfold converted_attributes, suppress, bind, lift, py_float; simpl.
  by rewrite Hs.
Qed.

Ltac same_step :=
  lazymatch goal with
  | |- same_outcome ?s1 ?s2 (bind (reads ?f) _) (bind (reads ?f) _) _ =>
      eapply same_outcome_bind;
      [ apply (same_outcome_reads s1 s2 f eq);
        change (f (with_native_wind_speed VNone s1) = f (with_native_wind_speed VNone s2));
        congruence
      | intros ? ? <- ]
  | |- same_outcome _ _ (bind (lift ?r) _) (bind (lift ?r) _) _ =>
      eapply same_outcome_bind; [apply same_outcome_lift|intros ? ? <-]
  | |- same_outcome _ _ (suppress _ _ _) (suppress _ _ _) _ =>
      apply same_outcome_suppress
  | |- same_outcome _ _ (ret _) (ret _) _ => by apply same_outcome_ret
  | |- same_outcome _ _ (raise _) (raise _) _ => by repeat split
  | |- same_outcome _ _ (if ?c then _ else _) (if ?c then _ else _) _ => destruct c
  | |- same_outcome _ _ (match ?c with Some _ => _ | None => _ end)
         (match ?c with Some _ => _ | None => _ end) _ => destruct c
  end.

Section SameButWindSpeed.
Context {Py : Platform} (self1 self2 : WeatherEntity).
Hypothesis Hsame : same_but_wind_speed self1 self2.

Lemma same_temperature_attributes (precision : nat) (data : gmap string Attr) :
  same_outcome self1 self2 (temperature_attributes precision data)
    (temperature_attributes precision data) eq.
Proof using Hsame.
  unfold same_but_wind_speed in Hsame.
  unfold temperature_attributes, native_temperature.
  eapply (same_outcome_bind _ _ _ _ _ _ eq); [by repeat same_step|]. intros ? ? <-.
  by repeat same_step.
Qed.

Lemma same_converted_attributes (value : PyVal) (conf : string)
    (native_unit unit : WeatherEntity → PyVal) (attr attr_unit : string)
    (data : gmap string Attr) :
  native_unit self1 = native_unit self2 → unit self1 = unit self2 →
  same_outcome self1 self2
    (converted_attributes value conf native_unit unit attr attr_unit data)
    (converted_attributes value conf native_unit unit attr attr_unit data) eq.
Proof.
  intros Hnative Hunit. unfold converted_attributes.
  destruct (is_not_None value); [|by apply same_outcome_ret].
  apply same_outcome_suppress. same_step.
  eapply same_outcome_bind; [by apply (same_outcome_reads _ _ _ eq)|]. intros ? ? <-.
  eapply same_outcome_bind; [by apply (same_outcome_reads _ _ _ eq)|]. intros ? ? <-.
  do 2 same_step.
  eapply same_outcome_bind; [by apply (same_outcome_reads _ _ _ eq)|]. intros ? ? <-.
  by apply same_outcome_ret.
Qed.

Lemma same_forecast_converted (key conf : string)
    (native_unit unit : WeatherEntity → PyVal) (entry new : gmap string PyVal) :
  native_unit self1 = native_unit self2 → unit self1 = unit self2 →
  same_outcome self1 self2
    (forecast_converted key conf native_unit unit entry new)
    (forecast_converted key conf native_unit unit entry new) eq.
Proof.
  intros Hnative Hunit. unfold forecast_converted.
  destruct (truthy _); [|by apply same_outcome_ret].
  apply same_outcome_suppress.
  eapply same_outcome_bind; [by apply (same_outcome_reads _ _ _ eq)|]. intros ? ? <-.
  eapply same_outcome_bind; [by apply (same_outcome_reads _ _ _ eq)|]. intros ? ? <-.
  by repeat same_step.
Qed.

Lemma same_forecast_entry_attributes (precision : nat) (entry : gmap string PyVal) :
  same_outcome self1 self2 (forecast_entry_attributes precision entry)
    (forecast_entry_attributes precision entry) eq.
Proof using Hsame.
  unfold same_but_wind_speed in Hsame.
  assert (∀ f : WeatherEntity → PyVal,
    f (with_native_wind_speed VNone self1) = f (with_native_wind_speed VNone self2))
    as Hf by (intros f; by rewrite Hsame).
  unfold forecast_entry_attributes.
  eapply (same_outcome_bind _ _ _ _ _ _ eq).
  { unfold forecast_temperature. by repeat same_step. }
  intros ? ? <-.
  eapply (same_outcome_bind _ _ _ _ _ _ eq).
  { apply same_forecast_converted;
      [exact (Hf native_temperature_unit)|exact (Hf temperature_unit)]. }
  intros ? ? <-.
  eapply (same_outcome_bind _ _ _ _ _ _ eq).
  { apply same_forecast_converted; [exact (Hf native_pressure_unit)|exact (Hf pressure_unit)]. }
  intros ? ? <-.
  eapply (same_outcome_bind _ _ _ _ _ _ eq).
  { apply same_forecast_converted;
      [exact (Hf native_wind_speed_unit)|exact (Hf wind_speed_unit)]. }
  intros ? ? <-.
  eapply (same_outcome_bind _ _ _ _ _ _ eq).
  { apply same_forecast_converted;
      [exact (Hf native_precipitation_unit)|exact (Hf precipitation_unit)]. }
  intros ? ? <-. by apply same_outcome_ret.
Qed.

(** Apart from the block of the wind speed, the two entities go through
    [state_attributes] alike; what the blocks of the wind speed do, [Hwind]
    says. *)
Lemma same_state_attributes :
  (∀ data, same_outcome self1 self2
     (converted_attributes (native_wind_speed self1) CONF_WIND_SPEED_UOM
        native_wind_speed_unit wind_speed_unit ATTR_WEATHER_WIND_SPEED
        ATTR_WEATHER_WIND_SPEED_UNIT data)
     (converted_attributes (native_wind_speed self2) CONF_WIND_SPEED_UOM
        native_wind_speed_unit wind_speed_unit ATTR_WEATHER_WIND_SPEED
        ATTR_WEATHER_WIND_SPEED_UNIT data) eq) →
  same_outcome self1 self2 state_attributes state_attributes eq.
Proof using Hsame.
  intros Hwind. pose proof Hsame as Hsame'. unfold same_but_wind_speed in Hsame'.
  assert (∀ f : WeatherEntity → PyVal,
    f (with_native_wind_speed VNone self1) = f (with_native_wind_speed VNone self2))
    as Hf by (intros f; by rewrite Hsame').
  unfold state_attributes. same_step.
  eapply (same_outcome_bind _ _ _ _ _ _ eq); [apply same_temperature_attributes|].
  intros ? ? <-. same_step.
  eapply (same_outcome_bind _ _ _ _ _ _ eq); [by repeat same_step|].
  intros ? ? <-. same_step.
  eapply (same_outcome_bind _ _ _ _ _ _ eq); [by repeat same_step|].
  intros ? ? <-. same_step.
  eapply (same_outcome_bind _ _ _ _ _ _ eq).
  { apply same_converted_attributes;
      [exact (Hf native_pressure_unit)|exact (Hf pressure_unit)]. }
  intros ? ? <-. same_step.
  eapply (same_outcome_bind _ _ _ _ _ _ eq); [by repeat same_step|].
  intros ? ? <-.
  eapply (same_outcome_bind _ _ _ _ _ _ (λ a b, a = native_wind_speed self1 ∧
                                                 b = native_wind_speed self2)).
  { by apply same_outcome_reads. }
  intros ? ? [-> ->].
  eapply (same_outcome_bind _ _ _ _ _ _ eq); [apply Hwind|].
  intros ? ? <-. same_step.
  eapply (same_outcome_bind _ _ _ _ _ _ eq).
  { apply same_converted_attributes;
      [exact (Hf native_visibility_unit)|exact (Hf visibility_unit)]. }
  intros ? ? <-. same_step.
  eapply (same_outcome_bind _ _ _ _ _ _ eq); [by repeat same_step|].
  intros ? ? <-. unfold forecast_attributes. same_step. same_step; [|by same_step].
  eapply (same_outcome_bind _ _ _ _ _ _ eq).
  { apply same_outcome_for_each. apply same_forecast_entry_attributes. }
  intros ? ? <-. by same_step.
Qed.

End SameButWindSpeed.

(** C7: with a native wind speed that is a string [float] refuses, the state
    is the one of the same entity without a wind speed, exception for
    exception and key for key, and it has neither the wind speed nor its
    unit. *)
Theorem non_numeric_wind_speed_omitted {Py : Platform} (self : WeatherEntity) (s : string) :
  float_parses s = false →
  result state_attributes (with_native_wind_speed (VStr s) self)
    = result state_attributes (with_native_wind_speed VNone self) ∧
  ∀ data, result state_attributes (with_native_wind_speed (VStr s) self) = Ok data →
    data !! ATTR_WEATHER_WIND_SPEED = None ∧
    data !! ATTR_WEATHER_WIND_SPEED_UNIT = None.
Proof.
  intros Hs. set (bad := with_native_wind_speed (VStr s) self).
  set (none := with_native_wind_speed VNone self). split.
  - assert (same_outcome bad none state_attributes state_attributes eq)
      as (_ & _ & Hsame).
    { apply same_state_attributes; [reflexivity|]. intros data.
      unfold same_outcome, final, result.
      change (native_wind_speed bad) with (VStr s).
      rewrite converted_attributes_non_numeric by done. by repeat split. }
    destruct (result state_attributes bad), (result state_attributes none);
      by try subst.
  - pose (I := λ d : gmap string Attr,
      d !! ATTR_WEATHER_WIND_SPEED = None ∧ d !! ATTR_WEATHER_WIND_SPEED_UNIT = None).
    assert (Hother : ∀ k v d, k ≠ ATTR_WEATHER_WIND_SPEED →
              k ≠ ATTR_WEATHER_WIND_SPEED_UNIT → I d → I (<[k := v]> d)).
    { intros k v d Hk Hku [Hd Hdu]. split; by rewrite lookup_insert_ne. }
    assert (returns bad state_attributes I) as [_ Hspec]; [|exact Hspec].
    apply state_attributes_inv;
      [| |
       |intros; apply converted_attributes_inv; [intros|done]
       |
       |
       |intros; apply converted_attributes_inv; [intros|done]
       | |];
      try (intros; repeat (apply Hother; [discriminate|discriminate|]); assumption).
    + eapply returns_weaken; [apply temperature_attributes_spec|].
      intros d [->|[r ->]]; [split; apply lookup_empty|].
      repeat (apply Hother; [discriminate|discriminate|]). split; apply lookup_empty.
    + intros d Hd. unfold returns, final, result.
      change (native_wind_speed bad) with (VStr s).
      rewrite converted_attributes_non_numeric by done.
      split; [done|]. by intros ? [= <-].
Qed.

Lemma non_numeric_wind_speed_omitted_witness :
  result (state_attributes (Py := Reference.platform)) (entity_mild (VStr "calm"))
    = Ok state_mild ∧
  state_mild !! ATTR_WEATHER_WIND_SPEED = None ∧
  state_mild !! ATTR_WEATHER_WIND_SPEED_UNIT = None.
Proof.
  destruct (non_numeric_wind_speed_omitted (Py := Reference.platform)
              (entity_mild VNone) "calm" eq_refl) as [Hsame Habsent].
  assert (result (state_attributes (Py := Reference.platform)) (entity_mild (VStr "calm"))
            = Ok state_mild) as Hrun by (vm_compute; reflexivity).
  split; [exact Hrun|]. apply Habsent. exact Hrun.
Defined.

(** ** The update of the registry entry *)

Lemma update_option_run (weather_options : gmap string PyVal) (conf : string)
    (native_unit : WeatherEntity → PyVal)
    (set : PyVal → WeatherEntity → WeatherEntity) (self : WeatherEntity)
    (native : PyVal) (accepted : bool) :
  native_unit self = native →
  truthy (py_get weather_options conf)
    && py_in (py_get weather_options conf) (VALID_UNITS !!! conf)
    && py_in native (VALID_UNITS !!! conf) = accepted →
  update_option weather_options conf native_unit set self =
    (Ok tt, if accepted then set (py_get weather_options conf) self else self).
Proof.
  intros <- <-. unfold update_option, bind, reads, modify, ret.
  destruct (truthy _), (py_in (py_get _ _) _); simpl; try reflexivity.
  by destruct (py_in _ _).
Qed.

Lemma bind_run {A B} (m : M A) (k : A → M B) (self self' : WeatherEntity) (a : A) :
  m self = (Ok a, self') → bind m k self = k a self'.
Proof. intros Hm. unfold bind. by rewrite Hm. Qed.

(** The update in closed form: it succeeds on an entity with a registry
    entry, and stores for each kind what [stored_option] says, whatever was
    stored before. *)
Lemma async_registry_entry_updated_run (self : WeatherEntity) (entry : RegistryEntry) :
  registry_entry self = Some entry →
  async_registry_entry_updated self =
    (Ok tt,
     set_weather_options
       (stored_option (options entry !! DOMAIN) CONF_TEMPERATURE_UOM
          (native_temperature_unit self))
       (stored_option (options entry !! DOMAIN) CONF_PRESSURE_UOM
          (native_pressure_unit self))
       (stored_option (options entry !! DOMAIN) CONF_VISIBILITY_UOM
          (native_visibility_unit self))
       (stored_option (options entry !! DOMAIN) CONF_PRECIPITATION_UOM
          (native_precipitation_unit self))
       (stored_option (options entry !! DOMAIN) CONF_WIND_SPEED_UOM
          (native_wind_speed_unit self))
       self).
Proof.
  intros Hentry. unfold async_registry_entry_updated.
  erewrite bind_run by (unfold reads; by rewrite Hentry). cbv beta iota.
  do 5 (erewrite bind_run by reflexivity).
  unfold stored_option. destruct (truthy_options _); [|reflexivity].
  repeat match goal with
         | |- context [if ?c && ?d && ?e then _ else _] =>
             destruct (c && d && e) eqn:?
         end;
    (erewrite bind_run
       by (eapply (update_option_run _ _ _ _ _ (native_temperature_unit self));
           [reflexivity|eassumption]));
    (erewrite bind_run
       by (eapply (update_option_run _ _ _ _ _ (native_pressure_unit self));
           [reflexivity|eassumption]));
    (erewrite bind_run
       by (eapply (update_option_run _ _ _ _ _ (native_precipitation_unit self));
           [reflexivity|eassumption]));
    (erewrite bind_run
       by (eapply (update_option_run _ _ _ _ _ (native_wind_speed_unit self));
           [reflexivity|eassumption]));
    (erewrite (update_option_run _ _ _ _ _ (native_visibility_unit self));
       [|reflexivity|eassumption]);
    reflexivity.
Qed.

Lemma py_in_truthy (v : PyVal) (valid : list string) :
  "" ∉ valid → py_in v valid = true → truthy v = true.
Proof.
  destruct v as [|z|q|s]; simpl; try done. intros Hvalid Hin.
  apply bool_decide_eq_true in Hin.
  destruct (String.eqb_spec s ""); [by subst|done].
Qed.

(** What the code stores is what the transition of the specification says:
    the truth tests of the code on the options and on the candidate add
    nothing to the two membership tests. *)
Lemma stored_option_resolve (weather_options : option (gmap string PyVal))
    (conf : string) (native_unit : PyVal) :
  "" ∉ (VALID_UNITS !!! conf) →
  stored_option weather_options conf native_unit =
    resolve_override weather_options conf (VALID_UNITS !!! conf) native_unit.
Proof.
  intros Hvalid. unfold stored_option, resolve_override, truthy_options, py_get.
  destruct weather_options as [opts|]; [|done]. simpl.
  case_bool_decide as Hempty; simpl.
  - subst opts. by rewrite lookup_empty.
  - destruct (opts !! conf) as [candidate|]; [|done].
    destruct (py_in candidate _) eqn:Hin.
    + by rewrite (py_in_truthy _ _ Hvalid Hin).
    + by rewrite andb_false_r.
Qed.

Lemma valid_units_not_empty_string :
  ("" ∉ (VALID_UNITS !!! CONF_TEMPERATURE_UOM)) ∧
  ("" ∉ (VALID_UNITS !!! CONF_PRESSURE_UOM)) ∧
  ("" ∉ (VALID_UNITS !!! CONF_VISIBILITY_UOM)) ∧
  ("" ∉ (VALID_UNITS !!! CONF_PRECIPITATION_UOM)) ∧
  "" ∉ (VALID_UNITS !!! CONF_WIND_SPEED_UOM).
Proof.
  destruct valid_units_lookup as (-> & -> & -> & -> & ->).
  repeat split; intros Hin; repeat (apply elem_of_cons in Hin as [Hin|Hin]; [done|]);
    by apply elem_of_nil in Hin.
Qed.

(** The overrides after the update, by the transition of the specification. *)
Lemma overrides_after_update (self : WeatherEntity) (entry : RegistryEntry) :
  registry_entry self = Some entry →
  result async_registry_entry_updated self = Ok tt ∧
  overrides (final async_registry_entry_updated self) =
    (resolve_override (options entry !! DOMAIN) CONF_TEMPERATURE_UOM
       VALID_UNITS_TEMPERATURE (native_temperature_unit self),
     resolve_override (options entry !! DOMAIN) CONF_PRESSURE_UOM
       VALID_UNITS_PRESSURE (native_pressure_unit self),
     resolve_override (options entry !! DOMAIN) CONF_VISIBILITY_UOM
       VALID_UNITS_VISIBILITY (native_visibility_unit self),
     resolve_override (options entry !! DOMAIN) CONF_PRECIPITATION_UOM
       VALID_UNITS_PRECIPITATION (native_precipitation_unit self),
     resolve_override (options entry !! DOMAIN) CONF_WIND_SPEED_UOM
       VALID_UNITS_SPEED (native_wind_speed_unit self)).
Proof.
  intros Hentry. unfold result, final.
  rewrite (async_registry_entry_updated_run self entry Hentry).
  split; [done|]. unfold overrides; simpl.
  destruct valid_units_not_empty_string as (HT & HP & HV & HR & HW).
  rewrite !stored_option_resolve by done.
  by destruct valid_units_lookup as (-> & -> & -> & -> & ->).
Qed.

(** C8: the update of the registry entry does not depend on the overrides
    held before it and is idempotent: it succeeds, gives each of the five
    kinds the override that the options and the native unit of that kind
    alone decide, the same from any overrides [t p v r w] held before, and a
    second update right after the first changes nothing. *)
Theorem registry_update_idempotent (self : WeatherEntity) (entry : RegistryEntry)
    (t p v r w : PyVal) :
  registry_entry self = Some entry →
  result async_registry_entry_updated (set_weather_options t p v r w self) = Ok tt ∧
  overrides (final async_registry_entry_updated (set_weather_options t p v r w self)) =
    overrides (final async_registry_entry_updated self) ∧
  overrides (final async_registry_entry_updated self) =
    (resolve_override (options entry !! DOMAIN) CONF_TEMPERATURE_UOM
       VALID_UNITS_TEMPERATURE (native_temperature_unit self),
     resolve_override (options entry !! DOMAIN) CONF_PRESSURE_UOM
       VALID_UNITS_PRESSURE (native_pressure_unit self),
     resolve_override (options entry !! DOMAIN) CONF_VISIBILITY_UOM
       VALID_UNITS_VISIBILITY (native_visibility_unit self),
     resolve_override (options entry !! DOMAIN) CONF_PRECIPITATION_UOM
       VALID_UNITS_PRECIPITATION (native_precipitation_unit self),
     resolve_override (options entry !! DOMAIN) CONF_WIND_SPEED_UOM
       VALID_UNITS_SPEED (native_wind_speed_unit self)) ∧
  final async_registry_entry_updated (final async_registry_entry_updated self) =
    final async_registry_entry_updated self.
Proof.
  intros Hentry.
  assert (registry_entry (set_weather_options t p v r w self) = Some entry)
    as Hentry' by exact Hentry.
  destruct (overrides_after_update _ _ Hentry) as [_ Hself].
  destruct (overrides_after_update _ _ Hentry') as [Hok Hstale].
  split; [exact Hok|]. split; [by rewrite Hself, Hstale|]. split; [exact Hself|].
  unfold final. rewrite (async_registry_entry_updated_run self entry Hentry). simpl.
  by erewrite async_registry_entry_updated_run by exact Hentry.
Qed.

Lemma registry_update_idempotent_witness :
  result async_registry_entry_updated entity_knots_stale = Ok tt ∧
  overrides (final async_registry_entry_updated entity_knots_stale) =
    (VStr TEMP_FAHRENHEIT, VNone, VNone, VNone, VNone).
Proof.
  destruct (registry_update_idempotent entity_knots options_knots
              (VStr TEMP_CELSIUS) (VStr PRESSURE_MMHG) (VStr LENGTH_MILES)
              (VStr LENGTH_INCHES) (VStr SPEED_KILOMETERS_PER_HOUR) eq_refl)
    as (Hok & Hstale & Hself & _).
  split; [exact Hok|].
  unfold entity_knots_stale. rewrite Hstale, Hself. vm_compute. reflexivity.
Defined.

(** C6: when the wind speed unit of the options is not a valid wind speed
    unit, or the native wind speed unit of the entity is not, the update
    leaves the override of the wind speed unset, and the wind speed unit is
    the default of the unit system: m/s when metric, mph otherwise. *)
Theorem invalid_wind_speed_override_ignored (self : WeatherEntity)
    (entry : RegistryEntry) (opts : gmap string PyVal) (candidate : PyVal) :
  registry_entry self = Some entry →
  options entry !! DOMAIN = Some opts →
  opts !! CONF_WIND_SPEED_UOM = Some candidate →
  py_in candidate VALID_UNITS_SPEED = false ∨
    py_in (native_wind_speed_unit self) VALID_UNITS_SPEED = false →
  result async_registry_entry_updated self = Ok tt ∧
  _weather_option_wind_speed_uom (final async_registry_entry_updated self) = VNone ∧
  wind_speed_unit (final async_registry_entry_updated self) =
    VStr (if is_metric (hass_config_units self)
          then SPEED_METERS_PER_SECOND else SPEED_MILES_PER_HOUR).
Proof.
  intros Hentry Hopts Hcandidate Hinvalid.
  destruct (overrides_after_update _ _ Hentry) as [Hok Hover].
  split; [exact Hok|].
  assert (_weather_option_wind_speed_uom (final async_registry_entry_updated self) = VNone)
    as Hunset.
  { unfold overrides in Hover. injection Hover as _ _ _ _ ->.
    unfold resolve_override. rewrite Hopts, Hcandidate.
    destruct Hinvalid as [-> | ->]; [done|by rewrite andb_false_r]. }
  split; [exact Hunset|].
  unfold wind_speed_unit. rewrite Hunset. simpl.
  unfold final. rewrite (async_registry_entry_updated_run self entry Hentry). simpl.
  by destruct (is_metric _).
Qed.

Lemma invalid_wind_speed_override_ignored_witness :
  result async_registry_entry_updated entity_knots = Ok tt ∧
  _weather_option_wind_speed_uom (final async_registry_entry_updated entity_knots)
    = VNone ∧
  wind_speed_unit (final async_registry_entry_updated entity_knots)
    = VStr SPEED_METERS_PER_SECOND.
Proof.
  apply (invalid_wind_speed_override_ignored entity_knots options_knots
           (<[CONF_WIND_SPEED_UOM := VStr "kn"]>
              (<[CONF_TEMPERATURE_UOM := VStr TEMP_FAHRENHEIT]> ∅))
           (VStr "kn")).
  - reflexivity.
  - vm_compute. reflexivity.
  - vm_compute. reflexivity.
  - left. vm_compute. reflexivity.
Defined.

(** C5: the temperature unit is the override of the entity when one is set,
    and the temperature unit of the system configuration otherwise; after an
    update the override is unset or a valid temperature unit, so that "set"
    is "not None"; the metric flag plays no part: entities with the same
    override and the same system temperature unit have the same temperature
    unit, and a metric system set to °F shows °F next to hPa. *)
Theorem temperature_unit_override_or_system (self : WeatherEntity) :
  temperature_unit self =
    (if truthy (_weather_option_temperature_uom self)
     then _weather_option_temperature_uom self
     else VStr (units_temperature_unit (hass_config_units self))) ∧
  (∀ entry, registry_entry self = Some entry →
     (_weather_option_temperature_uom (final async_registry_entry_updated self) = VNone ∧
      temperature_unit (final async_registry_entry_updated self) =
        VStr (units_temperature_unit (hass_config_units self))) ∨
     (∃ u, u ∈ VALID_UNITS_TEMPERATURE ∧
        _weather_option_temperature_uom (final async_registry_entry_updated self) = VStr u ∧
        temperature_unit (final async_registry_entry_updated self) = VStr u)) ∧
  (∀ self', _weather_option_temperature_uom self' = _weather_option_temperature_uom self →
     units_temperature_unit (hass_config_units self') =
       units_temperature_unit (hass_config_units self) →
     temperature_unit self' = temperature_unit self) ∧
  temperature_unit (sample_entity metric_fahrenheit None VNone VNone VNone None)
    = VStr TEMP_FAHRENHEIT ∧
  pressure_unit (sample_entity metric_fahrenheit None VNone VNone VNone None)
    = VStr PRESSURE_HPA.
Proof.
  split; [reflexivity|]. split; [|split; [|split; reflexivity]].
  - intros entry Hentry.
    destruct (overrides_after_update _ _ Hentry) as [_ Hover].
    unfold overrides in Hover. injection Hover as Hover _ _ _ _.
    assert (hass_config_units (final async_registry_entry_updated self)
              = hass_config_units self) as Hunits.
    { unfold final. by rewrite (async_registry_entry_updated_run self entry Hentry). }
    unfold temperature_unit. rewrite Hunits, Hover. unfold resolve_override.
    destruct (options entry !! DOMAIN) as [opts|]; [|by left].
    destruct (opts !! CONF_TEMPERATURE_UOM) as [candidate|]; [|by left].
    destruct (py_in candidate VALID_UNITS_TEMPERATURE) eqn:Hin; [|by left].
    destruct (py_in (native_temperature_unit self) _); [|by left]. simpl.
    destruct valid_units_not_empty_string as (HT & _).
    destruct valid_units_lookup as (HL & _). rewrite HL in HT.
    rewrite (py_in_truthy _ _ HT Hin).
    destruct candidate as [|z|q|u]; try done. right. exists u.
    split; [|done]. by apply bool_decide_eq_true in Hin.
  - intros self' Hoverride Hsystem. unfold temperature_unit.
    by rewrite Hoverride, Hsystem.
Qed.

(** * Further properties *)

(** ** The blocks of [state_attributes], step by step *)

Lemma precipitation_unit_truthy (self : WeatherEntity) :
  truthy (precipitation_unit self) = true.
Proof.
  unfold precipitation_unit.
  destruct (truthy (_weather_option_precipitation_uom self)) eqn:Ht; [done|].
  by destruct (is_metric _).
Qed.

Lemma forecast_attributes_entries {Py : Platform} (self : WeatherEntity) (precision : nat)
    (data : gmap string Attr) (Q : gmap string PyVal → gmap string PyVal → Prop) :
  (∀ entry, returns self (forecast_entry_attributes precision entry) (Q entry)) →
  returns self (forecast_attributes precision data)
    (λ data',
       match forecast self with
       | None => data' = data
       | Some entries =>
           ∃ entries', data' = <[ATTR_FORECAST := AForecast entries']> data ∧
                       Forall2 Q entries entries'
       end).
Proof.
  intros Hentry. unfold forecast_attributes. returns_step.
  destruct (forecast self) as [entries|]; [|by returns_step].
  eapply returns_bind; [apply returns_for_each; intros entry _; apply Hentry|].
  intros entries' Hall. returns_step. by exists entries'.
Qed.

(** The rule of sequence for [state_attributes]: one predicate on [data]
    after each of its blocks. *)
Lemma state_attributes_stages {Py : Platform} (self : WeatherEntity)
    (I1 I2 I3 I4 I5 I6 I7 I8 Q : gmap string Attr → Prop) :
  returns self (temperature_attributes (precision_digits self) ∅) I1 →
  (∀ data, I1 data →
     returns self
       (if is_not_None (humidity self)
        then bind (lift (py_round (humidity self)))
               (λ rounded, ret (<[ATTR_WEATHER_HUMIDITY := AVal rounded]> data))
        else ret data) I2) →
  (∀ data, I2 data →
     I3 (if is_not_None (ozone self)
         then <[ATTR_WEATHER_OZONE := AVal (ozone self)]> data else data)) →
  (∀ data, I3 data →
     returns self
       (converted_attributes (native_pressure self) CONF_PRESSURE_UOM native_pressure_unit
          pressure_unit ATTR_WEATHER_PRESSURE ATTR_WEATHER_PRESSURE_UNIT data) I4) →
  (∀ data, I4 data →
     I5 (if is_not_None (wind_bearing self)
         then <[ATTR_WEATHER_WIND_BEARING := AVal (wind_bearing self)]> data else data)) →
  (∀ data, I5 data →
     returns self
       (converted_attributes (native_wind_speed self) CONF_WIND_SPEED_UOM
          native_wind_speed_unit wind_speed_unit ATTR_WEATHER_WIND_SPEED
          ATTR_WEATHER_WIND_SPEED_UNIT data) I6) →
  (∀ data, I6 data →
     returns self
       (converted_attributes (native_visibility self) CONF_VISIBILITY_UOM
          native_visibility_unit visibility_unit ATTR_WEATHER_VISIBILITY
          ATTR_WEATHER_VISIBILITY_UNIT data) I7) →
  (∀ data, I7 data →
     I8 (<[ATTR_WEATHER_PRECIPITATION_UNIT := AVal (precipitation_unit self)]> data)) →
  (∀ data, I8 data → returns self (forecast_attributes (precision_digits self) data) Q) →
  returns self state_attributes Q.
Proof.
  intros H1 H2 H3 H4 H5 H6 H7 H8 H9.
  unfold state_attributes. returns_step.
  eapply returns_bind; [exact H1|]. intros data1 J1. returns_step.
  eapply returns_bind; [by apply H2|]. intros data2 J2. returns_step.
  eapply (returns_bind _ _ _ I3); [returns_step; by apply H3|].
  intros data3 J3. returns_step.
  eapply returns_bind; [by apply H4|]. intros data4 J4. returns_step.
  eapply (returns_bind _ _ _ I5); [returns_step; by apply H5|].
  intros data5 J5. returns_step.
  eapply returns_bind; [by apply H6|]. intros data6 J6. returns_step.
  eapply returns_bind; [by apply H7|]. intros data7 J7. returns_step.
  rewrite precipitation_unit_truthy.
  eapply (returns_bind _ _ _ I8); [returns_step; by apply H8|].
  intros data8 J8. by apply H9.
Qed.

Lemma by_lookups_insert (attr attr_unit k : string) (v : Attr)
    (S : option Attr → option Attr → Prop) (data : gmap string Attr) :
  k ≠ attr → k ≠ attr_unit →
  by_lookups attr attr_unit S data → by_lookups attr attr_unit S (<[k := v]> data).
Proof. intros Ha Hu. unfold by_lookups. by rewrite !lookup_insert_ne. Qed.

(** The blocks that do not own the keys looked at keep the predicate. *)
Section Frame.
Context {Py : Platform} (self : WeatherEntity) (attr attr_unit : string)
  (S : option Attr → option Attr → Prop).
Implicit Types (data : gmap string Attr).

Lemma frame_temperature data precision :
  ATTR_WEATHER_TEMPERATURE ≠ attr → ATTR_WEATHER_TEMPERATURE ≠ attr_unit →
  ATTR_WEATHER_TEMPERATURE_UNIT ≠ attr → ATTR_WEATHER_TEMPERATURE_UNIT ≠ attr_unit →
  by_lookups attr attr_unit S data →
  returns self (temperature_attributes precision data) (by_lookups attr attr_unit S).
Proof.
  intros ? ? ? ? Hdata. eapply returns_weaken; [apply temperature_attributes_spec|].
  intros data' [->|[r ->]]; [done|]. by do 2 (apply by_lookups_insert; [done|done|]).
Qed.

Lemma frame_humidity data :
  ATTR_WEATHER_HUMIDITY ≠ attr → ATTR_WEATHER_HUMIDITY ≠ attr_unit →
  by_lookups attr attr_unit S data →
  returns self
    (if is_not_None (humidity self)
     then bind (lift (py_round (humidity self)))
            (λ rounded, ret (<[ATTR_WEATHER_HUMIDITY := AVal rounded]> data))
     else ret data) (by_lookups attr attr_unit S).
Proof.
  intros ? ? Hdata. destruct (is_not_None _); [|by returns_step].
  returns_step. returns_step. by apply by_lookups_insert.
Qed.

Lemma frame_insert_if data (b : bool) (k : string) (v : Attr) :
  k ≠ attr → k ≠ attr_unit →
  by_lookups attr attr_unit S data →
  by_lookups attr attr_unit S (if b then <[k := v]> data else data).
Proof. intros ? ? Hdata. destruct b; [by apply by_lookups_insert|done]. Qed.

Lemma frame_converted data value conf native_unit unit a au :
  a ≠ attr → a ≠ attr_unit → au ≠ attr → au ≠ attr_unit →
  by_lookups attr attr_unit S data →
  returns self (converted_attributes value conf native_unit unit a au data)
    (by_lookups attr attr_unit S).
Proof.
  intros ? ? ? ? Hdata. apply converted_attributes_inv; [|done].
  intros d v w Hd. by do 2 (apply by_lookups_insert; [done|done|]).
Qed.

Lemma frame_forecast data precision :
  ATTR_FORECAST ≠ attr → ATTR_FORECAST ≠ attr_unit →
  by_lookups attr attr_unit S data →
  returns self (forecast_attributes precision data) (by_lookups attr attr_unit S).
Proof.
  intros ? ? Hdata.
  eapply returns_weaken.
  { apply (forecast_attributes_entries _ _ _ (λ _ _, True)).
    intros entry. eapply returns_weaken; [apply forecast_entry_attributes_spec|done]. }
  intros data'. simpl. destruct (forecast self).
  - intros (entries' & -> & _). by apply by_lookups_insert.
  - by intros ->.
Qed.

End Frame.

(** ** What each block leaves under its own keys *)

Lemma py_round_n_raises (v : PyVal) (n : nat) (x : PyExn) :
  py_round_n v n = Raise x → x = TypeError.
Proof. destruct v; simpl; congruence. Qed.

Lemma round_temperature_raises (precision : nat) (v : PyVal) (x : PyExn) :
  round_temperature precision v = Raise x → x = TypeError.
Proof.
  unfold round_temperature. destruct (precision =? 0)%nat; [|apply py_round_n_raises].
  destruct v; simpl; congruence.
Qed.

Lemma unit_conversions_lookup {Py : Platform} :
  UNIT_CONVERSIONS !!! CONF_PRESSURE_UOM = pressure_util_convert ∧
  UNIT_CONVERSIONS !!! CONF_VISIBILITY_UOM = distance_util_convert ∧
  UNIT_CONVERSIONS !!! CONF_PRECIPITATION_UOM = distance_util_convert ∧
  UNIT_CONVERSIONS !!! CONF_WIND_SPEED_UOM = speed_util_convert.
Proof. repeat split; vm_compute; reflexivity. Qed.

(** The outcome of the steps between the test of the reading and the two
    writes, for any rounding that raises TypeError only. *)
Lemma reading_block_outcome {Py : Platform} (self : WeatherEntity) (value : PyVal)
    (convert : PyVal → PyVal → PyVal → Res PyVal) (round : PyVal → Res PyVal)
    (native_unit unit : WeatherEntity → PyVal) (attr attr_unit : string)
    (data : gmap string Attr) :
  attr ≠ attr_unit →
  (∀ c x, round c = Raise x → x = TypeError) →
  data !! attr = None → data !! attr_unit = None →
  returns self
    (if is_not_None value then
       suppress ValueError
         (bind (lift (py_float value)) (λ _,
          bind (reads native_unit) (λ from_unit,
          bind (reads unit) (λ to_unit,
          bind (lift (convert value from_unit to_unit)) (λ converted,
          bind (lift (round converted)) (λ rounded,
          bind (reads unit) (λ unit',
          ret (<[attr_unit := AVal unit']> (<[attr := AVal rounded]> data))))))))) data
     else ret data)
    (by_lookups attr attr_unit
       (reading_outcome value (py_float value)
          (convert value (native_unit self) (unit self)) round (unit self))).
Proof.
  intros Hne Hround Ha Hu.
  unfold returns, final, result, by_lookups, reading_outcome, suppress, bind, lift,
    reads, ret.
  destruct value as [|z|q|s]; simpl.
  { split; [done|]. intros ? [= <-]. left. auto. }
  all: try destruct (float_parses s); simpl.
  all: try (destruct (convert _ _ _) as [c|x] eqn:Hc; simpl;
            [destruct (round c) as [r|x] eqn:Hr; simpl|]).
  all: try (apply Hround in Hr as ->; simpl).
  all: try (destruct (decide (x = ValueError)) as [->|Hx]; simpl).
  all: split; [done|]; intros ? [= <-].
  all: try (right; exists c, r; rewrite lookup_insert_ne, !lookup_insert_eq by done;
            by repeat split).
  all: left; auto.
Qed.

Section Outcomes.
Context {Py : Platform} (self : WeatherEntity).

Lemma state_temperature_outcome :
  returns self state_attributes
    (by_lookups ATTR_WEATHER_TEMPERATURE ATTR_WEATHER_TEMPERATURE_UNIT
       (λ x y, ∃ value, _attr_native_temperature self = Some value ∧
          reading_outcome value (py_float value)
            (temperature_util_convert value (native_temperature_unit self)
               (temperature_unit self))
            (round_temperature (precision_digits self)) (temperature_unit self) x y)).
Proof.
  match goal with |- returns _ _ ?I => set (IS := I) end.
  apply (state_attributes_stages self IS IS IS IS IS IS IS IS);
    try (intros;
         first [ by apply frame_humidity | by apply frame_insert_if
               | by apply frame_converted | by apply frame_forecast
               | by apply by_lookups_insert ]).
  unfold temperature_attributes. returns_step.
  rewrite unit_conversions_temperature.
  eapply returns_weaken.
  { apply (reading_block_outcome self a temperature_util_convert
             (round_temperature (precision_digits self)));
      [done|apply round_temperature_raises|apply lookup_empty|apply lookup_empty]. }
  intros data Hdata. by exists a.
Qed.

Lemma state_pressure_outcome :
  returns self state_attributes
    (by_lookups ATTR_WEATHER_PRESSURE ATTR_WEATHER_PRESSURE_UNIT
       (reading_outcome (native_pressure self) (py_float (native_pressure self))
          (pressure_util_convert (native_pressure self) (native_pressure_unit self)
             (pressure_unit self))
          (λ c, py_round_n c ROUNDING_PRECISION) (pressure_unit self))).
Proof.
  match goal with |- returns _ _ ?I => set (IS := I) end.
  set (IB := by_lookups ATTR_WEATHER_PRESSURE ATTR_WEATHER_PRESSURE_UNIT
               (λ x y : option Attr, x = None ∧ y = None)).
  apply (state_attributes_stages self IB IB IB IS IS IS IS IS);
    try (intros;
         first [ by apply frame_humidity | by apply frame_insert_if
               | by apply frame_converted | by apply frame_forecast
               | by apply by_lookups_insert ]).
  - by apply frame_temperature.
  - intros data [Ha Hu]. destruct unit_conversions_lookup as (Hconv & _).
    unfold converted_attributes. rewrite Hconv.
    apply (reading_block_outcome self _ pressure_util_convert); try done.
    intros c x. apply py_round_n_raises.
Qed.

Lemma state_wind_speed_outcome :
  returns self state_attributes
    (by_lookups ATTR_WEATHER_WIND_SPEED ATTR_WEATHER_WIND_SPEED_UNIT
       (reading_outcome (native_wind_speed self) (py_float (native_wind_speed self))
          (speed_util_convert (native_wind_speed self) (native_wind_speed_unit self)
             (wind_speed_unit self))
          (λ c, py_round_n c ROUNDING_PRECISION) (wind_speed_unit self))).
Proof.
  match goal with |- returns _ _ ?I => set (IS := I) end.
  set (IB := by_lookups ATTR_WEATHER_WIND_SPEED ATTR_WEATHER_WIND_SPEED_UNIT
               (λ x y : option Attr, x = None ∧ y = None)).
  apply (state_attributes_stages self IB IB IB IB IB IS IS IS);
    try (intros;
         first [ by apply frame_humidity | by apply frame_insert_if
               | by apply frame_converted | by apply frame_forecast
               | by apply by_lookups_insert ]).
  - by apply frame_temperature.
  - intros data [Ha Hu]. destruct unit_conversions_lookup as (_ & _ & _ & Hconv).
    unfold converted_attributes. rewrite Hconv.
    apply (reading_block_outcome self _ speed_util_convert); try done.
    intros c x. apply py_round_n_raises.
Qed.

Lemma state_visibility_outcome :
  returns self state_attributes
    (by_lookups ATTR_WEATHER_VISIBILITY ATTR_WEATHER_VISIBILITY_UNIT
       (reading_outcome (native_visibility self) (py_float (native_visibility self))
          (distance_util_convert (native_visibility self) (native_visibility_unit self)
             (visibility_unit self))
          (λ c, py_round_n c ROUNDING_PRECISION) (visibility_unit self))).
Proof.
  match goal with |- returns _ _ ?I => set (IS := I) end.
  set (IB := by_lookups ATTR_WEATHER_VISIBILITY ATTR_WEATHER_VISIBILITY_UNIT
               (λ x y : option Attr, x = None ∧ y = None)).
  apply (state_attributes_stages self IB IB IB IB IB IB IS IS);
    try (intros;
         first [ by apply frame_humidity | by apply frame_insert_if
               | by apply frame_converted | by apply frame_forecast
               | by apply by_lookups_insert ]).
  - by apply frame_temperature.
  - intros data [Ha Hu]. destruct unit_conversions_lookup as (_ & Hconv & _).
    unfold converted_attributes. rewrite Hconv.
    apply (reading_block_outcome self _ distance_util_convert); try done.
    intros c x. apply py_round_n_raises.
Qed.

End Outcomes.

Section MoreOutcomes.
Context {Py : Platform} (self : WeatherEntity).

Lemma state_humidity_outcome :
  returns self state_attributes
    (λ data,
       if is_not_None (humidity self)
       then ∃ r, py_round (humidity self) = Ok r ∧
                 data !! ATTR_WEATHER_HUMIDITY = Some (AVal r)
       else data !! ATTR_WEATHER_HUMIDITY = None).
Proof.
  pose (key := ATTR_WEATHER_HUMIDITY).
  pose (IB := by_lookups key key (λ x _ : option Attr, x = None)).
  pose (IS := by_lookups key key (λ x _ : option Attr,
    if is_not_None (humidity self)
    then ∃ r, py_round (humidity self) = Ok r ∧ x = Some (AVal r)
    else x = None)).
  apply (state_attributes_stages self IB IS IS IS IS IS IS IS IS);
    try (intros;
         first [ by apply frame_temperature | by apply frame_insert_if
               | by apply frame_converted | by apply frame_forecast
               | by apply by_lookups_insert ]).
  intros data Hdata. unfold IS, IB, by_lookups in *.
  destruct (is_not_None (humidity self)); [|by returns_step].
  returns_step. returns_step. exists a. split; [done|apply lookup_insert_eq].
Qed.

Lemma state_ozone_outcome :
  returns self state_attributes
    (λ data, data !! ATTR_WEATHER_OZONE =
               if is_not_None (ozone self) then Some (AVal (ozone self)) else None).
Proof.
  pose (key := ATTR_WEATHER_OZONE).
  pose (IB := by_lookups key key (λ x _ : option Attr, x = None)).
  pose (IS := by_lookups key key (λ x _ : option Attr,
    x = if is_not_None (ozone self) then Some (AVal (ozone self)) else None)).
  apply (state_attributes_stages self IB IB IS IS IS IS IS IS IS);
    try (intros;
         first [ by apply frame_temperature | by apply frame_humidity
               | by apply frame_insert_if
               | by apply frame_converted | by apply frame_forecast
               | by apply by_lookups_insert ]).
  intros data Hdata. unfold IS, IB, by_lookups in *.
  destruct (is_not_None (ozone self)); [apply lookup_insert_eq|done].
Qed.

Lemma state_wind_bearing_outcome :
  returns self state_attributes
    (λ data, data !! ATTR_WEATHER_WIND_BEARING =
               if is_not_None (wind_bearing self)
               then Some (AVal (wind_bearing self)) else None).
Proof.
  pose (key := ATTR_WEATHER_WIND_BEARING).
  pose (IB := by_lookups key key (λ x _ : option Attr, x = None)).
  pose (IS := by_lookups key key (λ x _ : option Attr,
    x = if is_not_None (wind_bearing self)
        then Some (AVal (wind_bearing self)) else None)).
  apply (state_attributes_stages self IB IB IB IB IS IS IS IS IS);
    try (intros;
         first [ by apply frame_temperature | by apply frame_humidity
               | by apply frame_insert_if
               | by apply frame_converted | by apply frame_forecast
               | by apply by_lookups_insert ]).
  intros data Hdata. unfold IS, IB, by_lookups in *.
  destruct (is_not_None (wind_bearing self)); [apply lookup_insert_eq|done].
Qed.

Lemma state_keys_bound :
  returns self state_attributes (λ data, dom data ⊆ state_keys).
Proof.
  assert (Hins : ∀ (data : gmap string Attr) k v,
            k ∈ state_keys → dom data ⊆ state_keys → dom (<[k := v]> data) ⊆ state_keys).
  { intros data k v Hk Hdata. rewrite dom_insert_L.
    apply union_least; [by apply singleton_subseteq_l|done]. }
  apply state_attributes_inv;
    try (intros; apply Hins; [by apply (bool_decide_unpack _); vm_compute|done]);
    try (intros; apply converted_attributes_inv; [|done]; intros;
         do 2 (apply Hins; [by apply (bool_decide_unpack _); vm_compute|]); done).
  eapply returns_weaken; [apply temperature_attributes_spec|].
  intros data [->|[r ->]]; [by rewrite dom_empty_L|].
  do 2 (apply Hins; [by apply (bool_decide_unpack _); vm_compute|]). by rewrite dom_empty_L.
Qed.

End MoreOutcomes.

(** ** The loop over the forecast *)

Section ForecastOutcomes.
Context {Py : Platform} (self : WeatherEntity).
Implicit Types (entry new : gmap string PyVal).

Lemma forecast_temperature_outcome precision entry new :
  returns self (forecast_temperature precision entry new)
    (λ new',
       (∀ k, k ≠ ATTR_FORECAST_TEMP → new' !! k = new !! k) ∧
       ∃ t, entry !! ATTR_FORECAST_TEMP = Some t ∧
         ((∃ c r,
             temperature_util_convert t (native_temperature_unit self)
               (temperature_unit self) = Ok c ∧
             round_temperature precision c = Ok r ∧
             new' !! ATTR_FORECAST_TEMP = Some r) ∨
          (temperature_util_convert t (native_temperature_unit self)
             (temperature_unit self) = Raise ValueError ∧
           new' !! ATTR_FORECAST_TEMP = new !! ATTR_FORECAST_TEMP))).
Proof.
  unfold returns, final, result, forecast_temperature, suppress, bind, lift, reads, ret,
    py_getitem.
  rewrite unit_conversions_temperature.
  destruct (entry !! ATTR_FORECAST_TEMP) as [t|]; simpl; [|done].
  destruct (temperature_util_convert _ _ _) as [c|x] eqn:Hc; simpl.
  - destruct (round_temperature precision c) as [r|x] eqn:Hr; simpl.
    + split; [done|]. intros ? [= <-]. split.
      * intros k Hk. by rewrite lookup_insert_ne.
      * exists t. split; [done|]. left. exists c, r. by rewrite lookup_insert_eq.
    + apply round_temperature_raises in Hr as ->. by simpl.
  - destruct (decide (x = ValueError)) as [->|Hx]; simpl; [|done].
    split; [done|]. intros ? [= <-]. split; [done|]. exists t. split; [done|]. by right.
Qed.

Lemma forecast_converted_outcome key conf native_unit unit entry new :
  returns self (forecast_converted key conf native_unit unit entry new)
    (λ new',
       (∀ k, k ≠ key → new' !! k = new !! k) ∧
       if truthy (py_get entry key) then
         (∃ c r,
            (UNIT_CONVERSIONS !!! conf) (py_get entry key) (native_unit self) (unit self)
              = Ok c ∧
            py_round_n c ROUNDING_PRECISION = Ok r ∧ new' !! key = Some r) ∨
         ((UNIT_CONVERSIONS !!! conf) (py_get entry key) (native_unit self) (unit self)
            = Raise ValueError ∧
          new' !! key = new !! key)
       else new' !! key = new !! key).
Proof.
  unfold returns, final, result, forecast_converted, suppress, bind, lift, reads, ret.
  destruct (truthy (py_get entry key)); simpl; [|by split; [|intros ? [= <-]]].
  destruct ((UNIT_CONVERSIONS !!! conf) _ _ _) as [c|x] eqn:Hc; simpl.
  - destruct (py_round_n c ROUNDING_PRECISION) as [r|x] eqn:Hr; simpl.
    + split; [done|]. intros ? [= <-]. split.
      * intros k Hk. by rewrite lookup_insert_ne.
      * left. exists c, r. by rewrite lookup_insert_eq.
    + apply py_round_n_raises in Hr as ->. by simpl.
  - destruct (decide (x = ValueError)) as [->|Hx]; simpl; [|done].
    split; [done|]. intros ? [= <-]. split; [done|]. by right.
Qed.

Lemma truthy_get_lookup entry key :
  truthy (py_get entry key) = true → entry !! key = Some (py_get entry key).
Proof. unfold py_get. by destruct (entry !! key). Qed.

Lemma forecast_entry_attributes_outcome entry :
  returns self (forecast_entry_attributes (precision_digits self) entry)
    (entry_outcome self entry).
Proof.
  unfold forecast_entry_attributes.
  eapply returns_bind; [apply forecast_temperature_outcome|].
  intros new1 (F1 & t & Ht & O1).
  eapply returns_bind; [apply forecast_converted_outcome|]. intros new2 (F2 & O2).
  eapply returns_bind; [apply forecast_converted_outcome|]. intros new3 (F3 & O3).
  eapply returns_bind; [apply forecast_converted_outcome|]. intros new4 (F4 & O4).
  eapply returns_bind; [apply forecast_converted_outcome|]. intros new5 (F5 & O5).
  apply returns_ret.
  (* the new entry, key by key *)
  assert (Hother : ∀ k, k ∉ converted_keys → new5 !! k = None).
  { intros k Hk. unfold converted_keys in Hk.
    rewrite !not_elem_of_cons in Hk. destruct Hk as (? & ? & ? & ? & ? & _).
    rewrite F5, F4, F3, F2, F1 by done. apply lookup_empty. }
  assert (HT : new5 !! ATTR_FORECAST_TEMP = new1 !! ATTR_FORECAST_TEMP)
    by (by rewrite F5, F4, F3, F2 by discriminate).
  assert (HL : new5 !! ATTR_FORECAST_TEMP_LOW = new2 !! ATTR_FORECAST_TEMP_LOW)
    by (by rewrite F5, F4, F3 by discriminate).
  assert (HL0 : new1 !! ATTR_FORECAST_TEMP_LOW = None)
    by (rewrite F1 by discriminate; apply lookup_empty).
  assert (HP : new5 !! ATTR_FORECAST_PRESSURE = new3 !! ATTR_FORECAST_PRESSURE)
    by (by rewrite F5, F4 by discriminate).
  assert (HP0 : new2 !! ATTR_FORECAST_PRESSURE = None)
    by (rewrite F2, F1 by discriminate; apply lookup_empty).
  assert (HW : new5 !! ATTR_FORECAST_WIND_SPEED = new4 !! ATTR_FORECAST_WIND_SPEED)
    by (by rewrite F5 by discriminate).
  assert (HW0 : new3 !! ATTR_FORECAST_WIND_SPEED = None)
    by (rewrite F3, F2, F1 by discriminate; apply lookup_empty).
  assert (HR0 : new4 !! ATTR_FORECAST_PRECIPITATION = None)
    by (rewrite F4, F3, F2, F1 by discriminate; apply lookup_empty).
  (* a guarded field of the result *)
  assert (Hfield : ∀ key conf native_unit unit (newa newb : gmap string PyVal),
    new5 !! key = newb !! key → newa !! key = None →
    (if truthy (py_get entry key) then
       (∃ c r,
          (UNIT_CONVERSIONS !!! conf) (py_get entry key) (native_unit self) (unit self)
            = Ok c ∧
          py_round_n c ROUNDING_PRECISION = Ok r ∧ newb !! key = Some r) ∨
       ((UNIT_CONVERSIONS !!! conf) (py_get entry key) (native_unit self) (unit self)
          = Raise ValueError ∧
        newb !! key = newa !! key)
     else newb !! key = newa !! key) →
    (is_Some (new5 !! key) → is_Some (entry !! key)) ∧
    if truthy (py_get entry key)
    then field_outcome
           ((UNIT_CONVERSIONS !!! conf) (py_get entry key) (native_unit self) (unit self))
           (λ c, py_round_n c ROUNDING_PRECISION) (py_get entry key)
           ((new5 ∪ entry) !! key)
    else (new5 ∪ entry) !! key = entry !! key).
  { intros key conf native_unit unit newa newb H5 Ha Hout.
    destruct (truthy (py_get entry key)) eqn:Htruthy.
    - pose proof (truthy_get_lookup _ _ Htruthy) as Hentry.
      split; [by rewrite Hentry|].
      destruct Hout as [(c & r & Hc & Hr & Hb)|[Hc Hb]].
      + left. exists c, r. repeat split; [done..|].
        apply lookup_union_Some_l. by rewrite H5.
      + right. split; [done|]. rewrite lookup_union_r; [done|]. by rewrite H5, Hb.
    - assert (new5 !! key = None) as Hnone by (by rewrite H5, Hout).
      split; [rewrite Hnone; by intros [? ?]|]. by rewrite lookup_union_r. }
  destruct (Hfield _ _ _ _ _ _ HL HL0 O2) as [DL OL].
  destruct (Hfield _ _ _ _ _ _ HP HP0 O3) as [DP OP].
  destruct (Hfield _ _ _ _ _ _ HW HW0 O4) as [DW OW].
  destruct (Hfield _ _ _ _ _ _ eq_refl HR0 O5) as [DR OR].
  unfold entry_outcome. split; [|split; [|split]].
  - rewrite dom_union_L. apply subseteq_union_1_L. intros k Hk.
    apply elem_of_dom in Hk. apply elem_of_dom.
    destruct (decide (k ∈ converted_keys)) as [Hin|Hout];
      [|rewrite (Hother k Hout) in Hk; by destruct Hk].
    unfold converted_keys in Hin. rewrite !elem_of_cons, elem_of_nil in Hin.
    destruct Hin as [->|[->|[->|[->|[->|[]]]]]]; auto; by rewrite Ht.
  - intros k Hk. rewrite lookup_union_r; [done|by apply Hother].
  - exists t. split; [done|].
    destruct O1 as [(c & r & Hc & Hr & Hb)|[Hc Hb]].
    + left. exists c, r. repeat split; [done..|].
      apply lookup_union_Some_l. by rewrite HT.
    + right. split; [done|]. rewrite lookup_union_r; [done|].
      rewrite HT, Hb. apply lookup_empty.
  - intros key conf native_unit unit Hin. unfold guarded_fields in Hin.
    rewrite !elem_of_cons, elem_of_nil in Hin.
    destruct Hin as [[= -> -> -> ->]|[[= -> -> -> ->]|[[= -> -> -> ->]|
                    [[= -> -> -> ->]|[]]]]]; done.
Qed.

(** The forecast of the state, entry by entry. *)
Lemma state_forecast_outcome :
  returns self state_attributes
    (λ data,
       match forecast self with
       | None => data !! ATTR_FORECAST = None
       | Some entries =>
           ∃ entries', data !! ATTR_FORECAST = Some (AForecast entries') ∧
                       Forall2 (entry_outcome self) entries entries'
       end).
Proof.
  pose (key := ATTR_FORECAST).
  pose (IB := by_lookups key key (λ x _ : option Attr, x = None)).
  eapply (state_attributes_stages self IB IB IB IB IB IB IB IB);
    try (intros;
         first [ by apply frame_temperature | by apply frame_humidity
               | by apply frame_insert_if
               | by apply frame_converted
               | by apply by_lookups_insert ]).
  intros data Hdata. eapply returns_weaken.
  { apply forecast_attributes_entries. apply forecast_entry_attributes_outcome. }
  intros data'. simpl. destruct (forecast self).
  - intros (entries' & -> & Hall). exists entries'. by rewrite lookup_insert_eq.
  - by intros ->.
Qed.

End ForecastOutcomes.

(** Closed equations are settled by evaluation. *)
Ltac by_vm :=
  lazymatch goal with
  | |- ?x = ?y => vm_cast_no_check (@eq_refl _ y)
  end.

Lemma entity_full_state :
  result (state_attributes (Py := Reference.platform)) entity_full = Ok state_full.
Proof. by_vm. Qed.

(** ** The current readings of the state *)



(** X2: in a state that [state_attributes] returns, each of pressure, wind
    speed and visibility is absent with its unit when the native reading is
    None, when [float] refuses it or when the conversion raises ValueError;
    otherwise it is the conversion rounded to 2 decimals, with the target
    unit under the unit key. *)
Theorem converted_reading_fields {Py : Platform} (self : WeatherEntity)
    (data : gmap string Attr) :
  result state_attributes self = Ok data →
  reading_outcome (native_pressure self) (py_float (native_pressure self))
    (pressure_util_convert (native_pressure self) (native_pressure_unit self)
       (pressure_unit self))
    (λ c, py_round_n c ROUNDING_PRECISION) (pressure_unit self)
    (data !! ATTR_WEATHER_PRESSURE) (data !! ATTR_WEATHER_PRESSURE_UNIT) ∧
  reading_outcome (native_wind_speed self) (py_float (native_wind_speed self))
    (speed_util_convert (native_wind_speed self) (native_wind_speed_unit self)
       (wind_speed_unit self))
    (λ c, py_round_n c ROUNDING_PRECISION) (wind_speed_unit self)
    (data !! ATTR_WEATHER_WIND_SPEED) (data !! ATTR_WEATHER_WIND_SPEED_UNIT) ∧
  reading_outcome (native_visibility self) (py_float (native_visibility self))
    (distance_util_convert (native_visibility self) (native_visibility_unit self)
       (visibility_unit self))
    (λ c, py_round_n c ROUNDING_PRECISION) (visibility_unit self)
    (data !! ATTR_WEATHER_VISIBILITY) (data !! ATTR_WEATHER_VISIBILITY_UNIT).
Proof.
  intros Hrun. split; [|split].
  - by apply (state_pressure_outcome self).
  - by apply (state_wind_speed_outcome self).
  - by apply (state_visibility_outcome self).
Qed.

Lemma converted_reading_fields_witness :
  reading_outcome (native_pressure entity_full)
    (py_float (Py := Reference.platform) (native_pressure entity_full))
    (Reference.convert Reference.pressure_table (native_pressure entity_full)
       (native_pressure_unit entity_full) (pressure_unit entity_full))
    (λ c, py_round_n c ROUNDING_PRECISION) (pressure_unit entity_full)
    (state_full !! ATTR_WEATHER_PRESSURE) (state_full !! ATTR_WEATHER_PRESSURE_UNIT).
Proof.
  exact (proj1 (converted_reading_fields (Py := Reference.platform) entity_full state_full
                  entity_full_state)).
Defined.

(** X3: in a state that [state_attributes] returns, the humidity is absent
    when the humidity of the entity is None, and [round] of it, an int,
    otherwise. *)
Theorem humidity_rounded {Py : Platform} (self : WeatherEntity)
    (data : gmap string Attr) :
  result state_attributes self = Ok data →
  if is_not_None (humidity self)
  then ∃ r, py_round (humidity self) = Ok r ∧
            data !! ATTR_WEATHER_HUMIDITY = Some (AVal r)
  else data !! ATTR_WEATHER_HUMIDITY = None.
Proof. intros Hrun. by apply (state_humidity_outcome self). Qed.

Lemma humidity_rounded_witness :
  ∃ r, py_round (humidity entity_full) = Ok r ∧
       state_full !! ATTR_WEATHER_HUMIDITY = Some (AVal r).
Proof.
  exact (humidity_rounded (Py := Reference.platform) entity_full state_full
           entity_full_state).
Defined.

(** X4: a humidity that is a string is not contained: when the block of the
    temperature returns, [state_attributes] raises TypeError, from [round]
    outside any [suppress]. *)
Theorem humidity_string_raises {Py : Platform} (self : WeatherEntity) (s : string)
    (data : gmap string Attr) :
  humidity self = VStr s →
  result (temperature_attributes (precision_digits self) ∅) self = Ok data →
  result state_attributes self = Raise TypeError.
Proof.
  intros Hhumidity Htemp.
  destruct (temperature_attributes_spec self (precision_digits self) ∅) as [Hfinal _].
  unfold result, final in *.
  destruct (temperature_attributes (precision_digits self) ∅ self) as [r self'] eqn:Hrun.
  simpl in *. subst r self'.
  unfold state_attributes, bind, reads, lift, ret. rewrite Hrun, Hhumidity. reflexivity.
Qed.

Lemma humidity_string_raises_witness :
  result (state_attributes (Py := Reference.platform))
    (sample_entity metric_celsius None (VFloat 20) (VStr "damp") VNone None)
  = Raise TypeError.
Proof.
  eapply (humidity_string_raises (Py := Reference.platform) _ "damp").
  - reflexivity.
  - vm_compute. reflexivity.
Defined.

(** X5: in a state that [state_attributes] returns, ozone and wind bearing
    are the values of the entity themselves, a compass label included, and
    absent when None. *)
Theorem ozone_and_wind_bearing_verbatim {Py : Platform} (self : WeatherEntity)
    (data : gmap string Attr) :
  result state_attributes self = Ok data →
  data !! ATTR_WEATHER_OZONE =
    (if is_not_None (ozone self) then Some (AVal (ozone self)) else None) ∧
  data !! ATTR_WEATHER_WIND_BEARING =
    (if is_not_None (wind_bearing self) then Some (AVal (wind_bearing self)) else None).
Proof.
  intros Hrun. split.
  - by apply (state_ozone_outcome self).
  - by apply (state_wind_bearing_outcome self).
Qed.

Lemma ozone_and_wind_bearing_verbatim_witness :
  state_full !! ATTR_WEATHER_OZONE = Some (AVal (VInt 300)) ∧
  state_full !! ATTR_WEATHER_WIND_BEARING = Some (AVal (VStr "NW")).
Proof.
  exact (ozone_and_wind_bearing_verbatim (Py := Reference.platform) entity_full state_full
           entity_full_state).
Defined.

(** X6: a state that [state_attributes] returns has no key besides the
    thirteen keys of the state. *)
Theorem state_has_known_keys_only {Py : Platform} (self : WeatherEntity)
    (data : gmap string Attr) :
  result state_attributes self = Ok data → dom data ⊆ state_keys.
Proof. intros Hrun. by apply (state_keys_bound self). Qed.

Lemma state_has_known_keys_only_witness : dom state_full ⊆ state_keys.
Proof.
  exact (state_has_known_keys_only (Py := Reference.platform) entity_full state_full
           entity_full_state).
Defined.

(** X7: without a declared precision and with a temperature unit other than
    °C, the temperature of a state that [state_attributes] returns is an
    int. *)
Theorem whole_degrees_outside_celsius {Py : Platform} (self : WeatherEntity)
    (data : gmap string Attr) (v : PyVal) :
  _attr_precision self = None →
  py_eq_str (temperature_unit self) TEMP_CELSIUS = false →
  result state_attributes self = Ok data →
  data !! ATTR_WEATHER_TEMPERATURE = Some (AVal v) →
  ∃ z, v = VInt z.
Proof.
  intros Hnone Hunit Hrun Hv.
  assert (precision_digits self = 0) as Hdigits.
  { unfold precision_digits, precision. rewrite Hnone, Hunit. vm_compute. reflexivity. }
  destruct (state_temperature_outcome self) as [_ Hspec].
  destruct (Hspec data Hrun) as (value & _ & [(Hx & _)|(c & r & _ & _ & _ & Hr & Hx & _)]).
  - rewrite Hv in Hx. discriminate.
  - rewrite Hv in Hx. injection Hx as ->. rewrite Hdigits in Hr.
    unfold round_temperature in Hr. simpl in Hr.
    destruct c; simpl in Hr; try discriminate; injection Hr as <-; by eexists.
Qed.

Lemma whole_degrees_outside_celsius_witness : ∃ z, VInt 68 = VInt z.
Proof.
  apply (whole_degrees_outside_celsius (Py := Reference.platform) entity_full state_full);
    [reflexivity|reflexivity|exact entity_full_state|by_vm].
Defined.

(** ** The forecast of the state *)

(** X8: in a state that [state_attributes] returns, the forecast has one
    entry for each entry of the entity, in order, with the same keys; every
    field but the five converted ones (condition, time, precipitation
    probability, wind bearing, and any other) is as in the source. *)
Theorem forecast_entries_keep_shape {Py : Platform} (self : WeatherEntity)
    (data : gmap string Attr) (entries : list (gmap string PyVal)) :
  result state_attributes self = Ok data →
  forecast self = Some entries →
  ∃ entries', data !! ATTR_FORECAST = Some (AForecast entries') ∧
    length entries' = length entries ∧
    Forall2 (λ entry entry',
               dom entry' = dom entry ∧
               ∀ k, k ∉ converted_keys → entry' !! k = entry !! k)
      entries entries'.
Proof.
  intros Hrun Hforecast. destruct (state_forecast_outcome self) as [_ Hspec].
  specialize (Hspec data Hrun). rewrite Hforecast in Hspec.
  destruct Hspec as (entries' & Hlook & Hall). exists entries'.
  split; [done|]. split; [symmetry; by eapply Forall2_length|].
  eapply Forall2_impl; [exact Hall|]. by intros entry entry' (? & ? & _).
Qed.

Lemma forecast_entries_keep_shape_witness :
  ∃ entries', state_full !! ATTR_FORECAST = Some (AForecast entries') ∧
    length entries' = length [entry_full] ∧
    Forall2 (λ entry entry',
               dom entry' = dom entry ∧
               ∀ k, k ∉ converted_keys → entry' !! k = entry !! k)
      [entry_full] entries'.
Proof.
  exact (forecast_entries_keep_shape (Py := Reference.platform) entity_full state_full
           [entry_full] entity_full_state eq_refl).
Defined.



(** X10: the low temperature, pressure, wind speed and precipitation of a
    forecast entry are left as they are when missing, None, 0 or otherwise
    falsy; a truthy one is replaced by its conversion rounded to 2 decimals,
    and kept in its native value when the conversion raises ValueError. *)
Theorem forecast_guarded_fields {Py : Platform} (self : WeatherEntity)
    (data : gmap string Attr) (entries : list (gmap string PyVal)) :
  result state_attributes self = Ok data →
  forecast self = Some entries →
  ∃ entries', data !! ATTR_FORECAST = Some (AForecast entries') ∧
    Forall2 (λ entry entry',
               ∀ key conf native_unit unit,
                 (key, conf, native_unit, unit) ∈ guarded_fields →
                 if truthy (py_get entry key)
                 then field_outcome
                        ((UNIT_CONVERSIONS !!! conf) (py_get entry key)
                           (native_unit self) (unit self))
                        (λ c, py_round_n c ROUNDING_PRECISION) (py_get entry key)
                        (entry' !! key)
                 else entry' !! key = entry !! key)
      entries entries'.
Proof.
  intros Hrun Hforecast. destruct (state_forecast_outcome self) as [_ Hspec].
  specialize (Hspec data Hrun). rewrite Hforecast in Hspec.
  destruct Hspec as (entries' & Hlook & Hall). exists entries'. split; [done|].
  eapply Forall2_impl; [exact Hall|]. by intros entry entry' (_ & _ & _ & ?).
Qed.

Lemma forecast_guarded_fields_witness :
  ∃ entries', state_full !! ATTR_FORECAST = Some (AForecast entries') ∧
    Forall2 (λ entry entry',
               ∀ key conf native_unit unit,
                 (key, conf, native_unit, unit) ∈ guarded_fields →
                 if truthy (py_get entry key)
                 then field_outcome
                        ((UNIT_CONVERSIONS (Py := Reference.platform) !!! conf)
                           (py_get entry key)
                           (native_unit entity_full) (unit entity_full))
                        (λ c, py_round_n c ROUNDING_PRECISION) (py_get entry key)
                        (entry' !! key)
                 else entry' !! key = entry !! key)
      [entry_full] entries'.
Proof.
  exact (forecast_guarded_fields (Py := Reference.platform) entity_full state_full
           [entry_full] entity_full_state eq_refl).
Defined.

(** X11: a forecast with an entry without the temperature key, wherever it
    stands in the list, makes [state_attributes] raise: no state is
    returned. *)
Theorem forecast_entry_without_temperature_never_returns {Py : Platform}
    (self : WeatherEntity) (entries : list (gmap string PyVal))
    (entry : gmap string PyVal) :
  forecast self = Some entries →
  entry ∈ entries →
  entry !! ATTR_FORECAST_TEMP = None →
  ∃ x, result state_attributes self = Raise x.
Proof.
  intros Hforecast Hin Hnone.
  destruct (result state_attributes self) as [data|x] eqn:Hrun; [|by exists x].
  destruct (state_forecast_outcome self) as [_ Hspec].
  specialize (Hspec data Hrun). rewrite Hforecast in Hspec.
  destruct Hspec as (entries' & _ & Hall).
  apply list_elem_of_lookup in Hin as [i Hi].
  destruct (Forall2_lookup_l _ _ _ _ _ Hall Hi) as (entry' & _ & _ & _ & (t & Ht & _) & _).
  congruence.
Qed.

Lemma forecast_entry_without_temperature_never_returns_witness :
  ∃ x, result (state_attributes (Py := Reference.platform)) entity_second_entry_bare
       = Raise x.
Proof.
  apply (forecast_entry_without_temperature_never_returns (Py := Reference.platform)
           entity_second_entry_bare [entry_mild; entry_without_temperature]
           entry_without_temperature).
  - reflexivity.
  - right. left.
  - by_vm.
Defined.

(** ** More on the update of the registry entry *)

(** X12: [async_registry_entry_updated] writes the five overrides and
    nothing else, with or without a registry entry: the entity after the
    call and the entity before it are the same once their overrides are set
    alike. *)
Theorem registry_update_touches_overrides_only (self : WeatherEntity)
    (t p v r w : PyVal) :
  set_weather_options t p v r w (final async_registry_entry_updated self) =
  set_weather_options t p v r w self.
Proof.
  unfold final. destruct (registry_entry self) as [entry|] eqn:Hentry.
  - by rewrite (async_registry_entry_updated_run self entry Hentry).
  - unfold async_registry_entry_updated, bind, reads. by rewrite Hentry.
Qed.

Lemma truthy_valid_unit (u : string) (valid : list string) :
  "" ∉ valid → u ∈ valid → truthy (VStr u) = true.
Proof.
  intros Hvalid Hu. apply (py_in_truthy _ valid Hvalid). simpl.
  by apply bool_decide_eq_true_2.
Qed.

Lemma valid_lists_not_empty_string :
  ("" ∉ VALID_UNITS_TEMPERATURE) ∧ ("" ∉ VALID_UNITS_PRESSURE) ∧
  ("" ∉ VALID_UNITS_VISIBILITY) ∧ ("" ∉ VALID_UNITS_PRECIPITATION) ∧
  ("" ∉ VALID_UNITS_SPEED).
Proof.
  destruct valid_units_not_empty_string as (HT & HP & HV & HR & HW).
  by destruct valid_units_lookup as (<- & <- & <- & <- & <-).
Qed.

(** X13: an option of the registry entry that is a valid unit of its kind,
    on an entity whose native unit of that kind is valid, becomes the unit
    of that kind after the update, whatever the other four options are. *)
Theorem valid_override_accepted (self : WeatherEntity) (entry : RegistryEntry)
    (opts : gmap string PyVal) :
  registry_entry self = Some entry →
  options entry !! DOMAIN = Some opts →
  (∀ u, opts !! CONF_TEMPERATURE_UOM = Some (VStr u) → u ∈ VALID_UNITS_TEMPERATURE →
     py_in (native_temperature_unit self) VALID_UNITS_TEMPERATURE = true →
     temperature_unit (final async_registry_entry_updated self) = VStr u) ∧
  (∀ u, opts !! CONF_PRESSURE_UOM = Some (VStr u) → u ∈ VALID_UNITS_PRESSURE →
     py_in (native_pressure_unit self) VALID_UNITS_PRESSURE = true →
     pressure_unit (final async_registry_entry_updated self) = VStr u) ∧
  (∀ u, opts !! CONF_VISIBILITY_UOM = Some (VStr u) → u ∈ VALID_UNITS_VISIBILITY →
     py_in (native_visibility_unit self) VALID_UNITS_VISIBILITY = true →
     visibility_unit (final async_registry_entry_updated self) = VStr u) ∧
  (∀ u, opts !! CONF_PRECIPITATION_UOM = Some (VStr u) → u ∈ VALID_UNITS_PRECIPITATION →
     py_in (native_precipitation_unit self) VALID_UNITS_PRECIPITATION = true →
     precipitation_unit (final async_registry_entry_updated self) = VStr u) ∧
  (∀ u, opts !! CONF_WIND_SPEED_UOM = Some (VStr u) → u ∈ VALID_UNITS_SPEED →
     py_in (native_wind_speed_unit self) VALID_UNITS_SPEED = true →
     wind_speed_unit (final async_registry_entry_updated self) = VStr u).
Proof.
  intros Hentry Hopts.
  destruct (overrides_after_update _ _ Hentry) as [_ Hover].
  unfold overrides in Hover. rewrite Hopts in Hover.
  injection Hover as HT HP HV HR HW.
  destruct valid_lists_not_empty_string as (ET & EP & EV & ER & EW).
  repeat split; intros u Hlook Hu Hnative.
  - unfold temperature_unit. rewrite HT, Hlook, Hnative, andb_true_r.
    replace (py_in (VStr u) VALID_UNITS_TEMPERATURE) with true
      by (symmetry; by apply bool_decide_eq_true_2).
    cbv iota. by rewrite (truthy_valid_unit _ _ ET Hu).
  - unfold pressure_unit. rewrite HP, Hlook, Hnative, andb_true_r.
    replace (py_in (VStr u) VALID_UNITS_PRESSURE) with true
      by (symmetry; by apply bool_decide_eq_true_2).
    cbv iota. by rewrite (truthy_valid_unit _ _ EP Hu).
  - unfold visibility_unit. rewrite HV, Hlook, Hnative, andb_true_r.
    replace (py_in (VStr u) VALID_UNITS_VISIBILITY) with true
      by (symmetry; by apply bool_decide_eq_true_2).
    cbv iota. by rewrite (truthy_valid_unit _ _ EV Hu).
  - unfold precipitation_unit. rewrite HR, Hlook, Hnative, andb_true_r.
    replace (py_in (VStr u) VALID_UNITS_PRECIPITATION) with true
      by (symmetry; by apply bool_decide_eq_true_2).
    cbv iota. by rewrite (truthy_valid_unit _ _ ER Hu).
  - unfold wind_speed_unit. rewrite HW, Hlook, Hnative, andb_true_r.
    replace (py_in (VStr u) VALID_UNITS_SPEED) with true
      by (symmetry; by apply bool_decide_eq_true_2).
    cbv iota. by rewrite (truthy_valid_unit _ _ EW Hu).
Qed.

Lemma valid_override_accepted_witness :
  wind_speed_unit (final async_registry_entry_updated entity_kmh)
    = VStr SPEED_KILOMETERS_PER_HOUR ∧
  pressure_unit (final async_registry_entry_updated entity_kmh) = VStr PRESSURE_MMHG.
Proof.
  destruct (valid_override_accepted entity_kmh entry_kmh options_kmh eq_refl)
    as (_ & Hpressure & _ & _ & Hwind); [by_vm|].
  split.
  - apply Hwind; [by_vm|right; left|reflexivity].
  - apply Hpressure; [by_vm|do 3 right; left|reflexivity].
Defined.

(** X14: when the options of the registry entry have nothing for the domain
    (no dict, or an empty one), the update unsets the five overrides, so
    that the temperature unit is the one of the system and the other four
    units are the defaults of the unit system. *)
Theorem domain_options_absent_resets_overrides (self : WeatherEntity)
    (entry : RegistryEntry) :
  registry_entry self = Some entry →
  truthy_options (options entry !! DOMAIN) = false →
  overrides (final async_registry_entry_updated self)
    = (VNone, VNone, VNone, VNone, VNone) ∧
  temperature_unit (final async_registry_entry_updated self)
    = VStr (units_temperature_unit (hass_config_units self)) ∧
  pressure_unit (final async_registry_entry_updated self)
    = VStr (if is_metric (hass_config_units self) then PRESSURE_HPA else PRESSURE_INHG) ∧
  wind_speed_unit (final async_registry_entry_updated self)
    = VStr (if is_metric (hass_config_units self)
            then SPEED_METERS_PER_SECOND else SPEED_MILES_PER_HOUR) ∧
  visibility_unit (final async_registry_entry_updated self)
    = VStr (if is_metric (hass_config_units self)
            then LENGTH_KILOMETERS else LENGTH_MILES) ∧
  precipitation_unit (final async_registry_entry_updated self)
    = VStr (if is_metric (hass_config_units self)
            then LENGTH_MILLIMETERS else LENGTH_INCHES).
Proof.
  intros Hentry Hfalsy. unfold final.
  rewrite (async_registry_entry_updated_run self entry Hentry).
  unfold stored_option. rewrite Hfalsy. simpl.
  unfold pressure_unit, wind_speed_unit, visibility_unit, precipitation_unit. simpl.
  by destruct (is_metric _).
Qed.

Lemma domain_options_absent_resets_overrides_witness :
  overrides (final async_registry_entry_updated entity_plain_stale)
    = (VNone, VNone, VNone, VNone, VNone) ∧
  temperature_unit (final async_registry_entry_updated entity_plain_stale)
    = VStr TEMP_CELSIUS ∧
  pressure_unit (final async_registry_entry_updated entity_plain_stale)
    = VStr PRESSURE_HPA ∧
  wind_speed_unit (final async_registry_entry_updated entity_plain_stale)
    = VStr SPEED_METERS_PER_SECOND ∧
  visibility_unit (final async_registry_entry_updated entity_plain_stale)
    = VStr LENGTH_KILOMETERS ∧
  precipitation_unit (final async_registry_entry_updated entity_plain_stale)
    = VStr LENGTH_MILLIMETERS.
Proof.
  exact (domain_options_absent_resets_overrides entity_plain_stale entry_plain
           eq_refl eq_refl).
Defined.

Lemma stored_option_valid (weather_options : option (gmap string PyVal))
    (conf : string) (native_unit : PyVal) :
  stored_option weather_options conf native_unit = VNone ∨
  py_in (stored_option weather_options conf native_unit) (VALID_UNITS !!! conf) = true.
Proof.
  unfold stored_option. destruct (truthy_options _); [|by left].
  destruct (truthy _); [|by left]. simpl.
  destruct (py_in (py_get _ _) _) eqn:Hin; [|by left]. simpl.
  destruct (py_in native_unit _); [by right|by left].
Qed.

(** X15: after an update of the registry entry, the units of pressure, wind
    speed, visibility and precipitation are valid units of their kind,
    whatever the options hold. *)
Theorem target_units_valid_after_update (self : WeatherEntity) (entry : RegistryEntry) :
  registry_entry self = Some entry →
  py_in (pressure_unit (final async_registry_entry_updated self))
    VALID_UNITS_PRESSURE = true ∧
  py_in (wind_speed_unit (final async_registry_entry_updated self))
    VALID_UNITS_SPEED = true ∧
  py_in (visibility_unit (final async_registry_entry_updated self))
    VALID_UNITS_VISIBILITY = true ∧
  py_in (precipitation_unit (final async_registry_entry_updated self))
    VALID_UNITS_PRECIPITATION = true.
Proof.
  intros Hentry. unfold final.
  rewrite (async_registry_entry_updated_run self entry Hentry).
  unfold pressure_unit, wind_speed_unit, visibility_unit, precipitation_unit. simpl.
  destruct valid_units_lookup as (_ & LP & LR & LW & LV).
  repeat split.
  - destruct (stored_option_valid (options entry !! DOMAIN) CONF_PRESSURE_UOM
                (native_pressure_unit self)) as [-> | Hin].
    + by destruct (is_metric _).
    + rewrite LP in Hin. destruct (truthy _); [done|by destruct (is_metric _)].
  - destruct (stored_option_valid (options entry !! DOMAIN) CONF_WIND_SPEED_UOM
                (native_wind_speed_unit self)) as [-> | Hin].
    + by destruct (is_metric _).
    + rewrite LW in Hin. destruct (truthy _); [done|by destruct (is_metric _)].
  - destruct (stored_option_valid (options entry !! DOMAIN) CONF_VISIBILITY_UOM
                (native_visibility_unit self)) as [-> | Hin].
    + by destruct (is_metric _).
    + rewrite LV in Hin. destruct (truthy _); [done|by destruct (is_metric _)].
  - destruct (stored_option_valid (options entry !! DOMAIN) CONF_PRECIPITATION_UOM
                (native_precipitation_unit self)) as [-> | Hin].
    + by destruct (is_metric _).
    + rewrite LR in Hin. destruct (truthy _); [done|by destruct (is_metric _)].
Qed.

Lemma target_units_valid_after_update_witness :
  py_in (pressure_unit (final async_registry_entry_updated entity_knots))
    VALID_UNITS_PRESSURE = true ∧
  py_in (wind_speed_unit (final async_registry_entry_updated entity_knots))
    VALID_UNITS_SPEED = true ∧
  py_in (visibility_unit (final async_registry_entry_updated entity_knots))
    VALID_UNITS_VISIBILITY = true ∧
  py_in (precipitation_unit (final async_registry_entry_updated entity_knots))
    VALID_UNITS_PRECIPITATION = true.
Proof. exact (target_units_valid_after_update entity_knots options_knots eq_refl). Defined.

(** X16: [async_internal_added_to_hass] runs the update exactly when the
    entity has a registry entry once the method of the base class has
    returned, and then succeeds: the assertion of the update never fails
    there.  An exception of the base class is passed on. *)
Theorem added_to_hass_updates_when_registered (super_added : M unit)
    (self : WeatherEntity) :
  async_internal_added_to_hass super_added self =
    match super_added self with
    | (Ok _, self') =>
        (Ok tt,
         match registry_entry self' with
         | Some _ => final async_registry_entry_updated self'
         | None => self'
         end)
    | (Raise x, self') => (Raise x, self')
    end.
Proof.
  unfold async_internal_added_to_hass, bind, reads.
  destruct (super_added self) as [[[]|x] self']; [|done].
  destruct (registry_entry self') as [entry|] eqn:Hentry; [|done].
  unfold final. by rewrite (async_registry_entry_updated_run self' entry Hentry).
Qed.

(** X17: what C6 says of the wind speed holds of the other four kinds: an
    option that is missing, or not a valid unit of its kind, or met by a
    native unit that is not valid, leaves the override of that kind unset
    after the update. *)
Theorem override_needs_valid_units (self : WeatherEntity) (entry : RegistryEntry)
    (opts : gmap string PyVal) :
  registry_entry self = Some entry →
  options entry !! DOMAIN = Some opts →
  ((∀ c, opts !! CONF_TEMPERATURE_UOM = Some c →
      py_in c VALID_UNITS_TEMPERATURE = false ∨
      py_in (native_temperature_unit self) VALID_UNITS_TEMPERATURE = false) →
   _weather_option_temperature_uom (final async_registry_entry_updated self) = VNone) ∧
  ((∀ c, opts !! CONF_PRESSURE_UOM = Some c →
      py_in c VALID_UNITS_PRESSURE = false ∨
      py_in (native_pressure_unit self) VALID_UNITS_PRESSURE = false) →
   _weather_option_pressure_uom (final async_registry_entry_updated self) = VNone) ∧
  ((∀ c, opts !! CONF_VISIBILITY_UOM = Some c →
      py_in c VALID_UNITS_VISIBILITY = false ∨
      py_in (native_visibility_unit self) VALID_UNITS_VISIBILITY = false) →
   _weather_option_visibility_uom (final async_registry_entry_updated self) = VNone) ∧
  ((∀ c, opts !! CONF_PRECIPITATION_UOM = Some c →
      py_in c VALID_UNITS_PRECIPITATION = false ∨
      py_in (native_precipitation_unit self) VALID_UNITS_PRECIPITATION = false) →
   _weather_option_precipitation_uom (final async_registry_entry_updated self) = VNone).
Proof.
  intros Hentry Hopts.
  destruct (overrides_after_update _ _ Hentry) as [_ Hover].
  unfold overrides in Hover. rewrite Hopts in Hover.
  injection Hover as HT HP HV HR _.
  repeat split; intros Hinvalid.
  - rewrite HT. destruct (opts !! CONF_TEMPERATURE_UOM) as [c|]; [|done].
    destruct (Hinvalid c eq_refl) as [-> | ->]; [done|by rewrite andb_false_r].
  - rewrite HP. destruct (opts !! CONF_PRESSURE_UOM) as [c|]; [|done].
    destruct (Hinvalid c eq_refl) as [-> | ->]; [done|by rewrite andb_false_r].
  - rewrite HV. destruct (opts !! CONF_VISIBILITY_UOM) as [c|]; [|done].
    destruct (Hinvalid c eq_refl) as [-> | ->]; [done|by rewrite andb_false_r].
  - rewrite HR. destruct (opts !! CONF_PRECIPITATION_UOM) as [c|]; [|done].
    destruct (Hinvalid c eq_refl) as [-> | ->]; [done|by rewrite andb_false_r].
Qed.

Lemma override_needs_valid_units_witness :
  _weather_option_pressure_uom (final async_registry_entry_updated entity_odd) = VNone ∧
  _weather_option_visibility_uom (final async_registry_entry_updated entity_odd) = VNone.
Proof.
  destruct (override_needs_valid_units entity_odd entry_odd options_odd eq_refl)
    as (_ & Hpressure & Hvisibility & _); [by_vm|].
  split.
  - apply Hpressure. intros c Hc. left.
    assert (c = VStr "atm") as -> by (vm_compute in Hc; congruence). reflexivity.
  - apply Hvisibility. intros c Hc. right. reflexivity.
Defined.

(** ** Exceptions that are not suppressed *)

(** X18: only ValueError is suppressed.  When a current reading is not None,
    [float] accepts it and its conversion raises another exception,
    [state_attributes] raises: no state is returned. *)
Theorem conversion_error_escapes {Py : Platform} (self : WeatherEntity) (x : PyExn) :
  x ≠ ValueError →
  (∃ value, _attr_native_temperature self = Some value ∧ value ≠ VNone ∧
     py_float value = Ok tt ∧
     temperature_util_convert value (native_temperature_unit self)
       (temperature_unit self) = Raise x) ∨
  (native_pressure self ≠ VNone ∧ py_float (native_pressure self) = Ok tt ∧
   pressure_util_convert (native_pressure self) (native_pressure_unit self)
     (pressure_unit self) = Raise x) ∨
  (native_wind_speed self ≠ VNone ∧ py_float (native_wind_speed self) = Ok tt ∧
   speed_util_convert (native_wind_speed self) (native_wind_speed_unit self)
     (wind_speed_unit self) = Raise x) ∨
  (native_visibility self ≠ VNone ∧ py_float (native_visibility self) = Ok tt ∧
   distance_util_convert (native_visibility self) (native_visibility_unit self)
     (visibility_unit self) = Raise x) →
  ∃ y, result state_attributes self = Raise y.
Proof.
  intros Hx Hraise.
  destruct (result state_attributes self) as [data|y] eqn:Hrun; [exfalso|by exists y].
  assert (Hno : ∀ value checked converted round unit a b,
    value ≠ VNone → checked = Ok tt → converted = Raise x →
    ¬ reading_outcome value checked converted round unit a b).
  { intros value checked converted round unit a b Hvalue Hchecked Hconverted
      [(_ & _ & [?|[?|?]])|(c & r & _ & _ & ? & _)]; congruence. }
  destruct Hraise as [(value & Hattr & Hvalue & Hfloat & Hconv)
                     |[(Hvalue & Hfloat & Hconv)
                     |[(Hvalue & Hfloat & Hconv)|(Hvalue & Hfloat & Hconv)]]].
  - destruct (state_temperature_outcome self) as [_ Hspec].
    destruct (Hspec data Hrun) as (value' & Hattr' & Hout).
    assert (value' = value) as -> by congruence. by eapply Hno.
  - destruct (state_pressure_outcome self) as [_ Hspec]. by eapply Hno, (Hspec data Hrun).
  - destruct (state_wind_speed_outcome self) as [_ Hspec]. by eapply Hno, (Hspec data Hrun).
  - destruct (state_visibility_outcome self) as [_ Hspec]. by eapply Hno, (Hspec data Hrun).
Qed.

Lemma conversion_error_escapes_witness :
  ∃ y, result (state_attributes (Py := strict_platform)) entity_odd = Raise y.
Proof.
  apply (conversion_error_escapes (Py := strict_platform) entity_odd TypeError);
    [discriminate|].
  right. left. split; [discriminate|]. split; reflexivity.
Defined.
